(** * Incremental i18n content delivery: cache, loader, store and resolver

    A shallow embedding of the content-resolution core of the Vue 3 i18n demo:

    - [src/services/db.ts]              the single-slot IndexedDB cache [languageDB];
    - [src/services/languageService.ts] the loader [loadLanguage];
    - the Pinia store [useLanguageStore] ([setAndLoadLanguage],
      [initializeLanguage], [loadAdditionalSection], [isSectionLoaded],
      [clearLanguageCache]);
    - the composable [useCaptionProvider] ([getNestedValue], [caption],
      [captions], [hasTranslation], [loadSection]).

    Modelling conventions.

    - What a document, the cache or the network holds is JSON data ([value]);
      [undefined] is [None] in an option.  What the code meets when it reads a
      property is a [jsvalue]: a datum, an object the code built itself
      ([filteredMessages], the spread in [loadAdditionalSection], the result
      of [captions]), or a built-in reached through a prototype.
    - A property read [obj[key]] follows the prototype chain: the own
      properties first (fields of objects, indices and [length] of strings
      and arrays), then the members the value inherits.  Which names are
      inherited, what a built-in answers to a read (it may throw), and which
      objects a template literal cannot turn into text are facts of the
      JavaScript runtime: they are the three fields of [Runtime], and every
      theorem holds for every runtime.  The examples run under
      [browserRuntime], which lists the members of [Object.prototype].
      An object keeps the prototype it was created with: the re-linking that
      an assignment to [__proto__] can cause is not followed.
    - A string is a sequence of characters; one character stands for one
      UTF-16 code unit.
    - [async] functions are run to completion one after the other: an action
      is a function from the world to an outcome and a new world ([M]).  A
      rejected promise and a thrown exception are the same outcome [Throw].
    - [console.*] calls write nothing the code reads back; of them only the
      template literals of [caption], which can throw, are kept.  The views,
      the router and the percentages of [logTranslationStats] are left out.
      What the device says to [initializeLanguage] is a [Platform]. *)

From Stdlib Require Import Ascii String ZArith Lia.
From stdpp Require Import gmap strings list pretty.

Set Warnings "-register-all,-clear-no-such-hyp".
Open Scope string_scope.

(** ** JSON data *)

Inductive value : Type :=
  | VNull
  | VBool (b : bool)
  | VNum (n : Z)           (* numbers; only their being zero or not matters here *)
  | VStr (s : string)
  | VArr (items : list value)
  | VObj (fields : gmap string value).

(** JavaScript's ToBoolean, on a datum and on a possibly undefined one. *)
Definition truthy (v : value) : bool :=
  match v with
  | VNull => false
  | VBool b => b
  | VNum n => negb (n =? 0)%Z
  | VStr s => negb (String.eqb s "")
  | VArr _ => true
  | VObj _ => true
  end.

(** [if (x) ... else ...] on a possibly undefined [x]: the value when it is
    truthy. *)
Definition if_truthy (o : option value) : option value :=
  match o with
  | Some v => if truthy v then Some v else None
  | None => None
  end.

(** The array index a property name denotes, when it is the canonical decimal
    spelling of one ("0", "7", "12"; not "", "01" or "+1"). *)
Definition digit_of (c : ascii) : option nat :=
  let n := nat_of_ascii c in
  if (48 <=? n)%nat && (n <=? 57)%nat then Some (n - 48)%nat else None.

Fixpoint digits_value (acc : nat) (s : string) : option nat :=
  match s with
  | EmptyString => Some acc
  | String c rest =>
      match digit_of c with
      | Some d => digits_value (10 * acc + d) rest
      | None => None
      end
  end.

Definition array_index (k : string) : option nat :=
  match k with
  | EmptyString => None
  | String "0" EmptyString => Some 0%nat
  | String "0" _ => None
  | _ => digits_value 0 k
  end.

(** The own property [k] of a datum: a field of an object, an index or the
    [length] of a string or of an array. *)
Definition ownProperty (v : value) (k : string) : option value :=
  match v with
  | VObj fields => fields !! k
  | VStr s =>
      if String.eqb k "length" then Some (VNum (Z.of_nat (String.length s)))
      else match array_index k with
           | Some i => (fun c => VStr (String c EmptyString)) <$> String.get i s
           | None => None
           end
  | VArr items =>
      if String.eqb k "length" then Some (VNum (Z.of_nat (length items)))
      else match array_index k with
           | Some i => items !! i
           | None => None
           end
  | VNull | VBool _ | VNum _ => None
  end.

(** ** Strings: [split] and [replace] *)

(** [s.split(sep)] for a one-character separator: never empty, and
    ["".split(".")] is [[""]]. *)
Fixpoint split (sep : ascii) (s : string) : list string :=
  match s with
  | EmptyString => [EmptyString]
  | String c rest =>
      if Ascii.eqb c sep then EmptyString :: split sep rest
      else match split sep rest with
           | hd :: tl => String c hd :: tl
           | [] => [String c EmptyString]
           end
  end.

Fixpoint drop_chars (n : nat) (s : string) : string :=
  match n, s with
  | O, _ => s
  | S n', String _ rest => drop_chars n' rest
  | S _, EmptyString => EmptyString
  end.

(** The text before and after the first occurrence of [pat] in [s]. *)
Fixpoint find_first (pat s : string) : option (string * string) :=
  if String.prefix pat s then Some (EmptyString, drop_chars (String.length pat) s)
  else match s with
       | EmptyString => None
       | String c rest =>
           match find_first pat rest with
           | Some (before, after) => Some (String c before, after)
           | None => None
           end
       end.

(** The replacement text of [String.prototype.replace] for a string pattern
    (ECMAScript GetSubstitution with no capture groups): [$$] is a dollar
    sign, [$&] the matched text, [$`] the text before the match, [$'] the text
    after it; every other character, a [$] before a digit included, stands for
    itself. *)
Fixpoint getSubstitution (matched before after replacement : string) : string :=
  match replacement with
  | EmptyString => EmptyString
  | String "$" (String "$" rest) =>
      String "$" (getSubstitution matched before after rest)
  | String "$" (String "&" rest) =>
      matched ++ getSubstitution matched before after rest
  | String "$" (String "`" rest) =>
      before ++ getSubstitution matched before after rest
  | String "$" (String "'" rest) =>
      after ++ getSubstitution matched before after rest
  | String c rest => String c (getSubstitution matched before after rest)
  end.

(** [s.replace(pat, replacement)] with both arguments strings: the FIRST
    occurrence of [pat] only, and [s] itself when there is none. *)
Definition replace (s pat replacement : string) : string :=
  match find_first pat s with
  | Some (before, after) =>
      before ++ getSubstitution pat before after replacement ++ after
  | None => s
  end.

(** ** Outcomes *)

(** What a rejected promise or a [throw] carries. *)
Inductive exn : Type :=
  | NetworkError                (* [fetch] rejected *)
  | HttpError (status : Z)      (* the [Error] thrown on [!response.ok] *)
  | SyntaxError                 (* [response.json()] on a malformed body *)
  | TypeError                   (* a property read or [Object.keys] on [null]; a
                                   value that cannot be turned into text *)
  | StorageError                (* IndexedDB: open, get, put or clear failed *)
  | LocalStorageError.          (* [localStorage] access denied or quota exceeded *)

Inductive outcome (A : Type) : Type :=
  | Return (a : A)
  | Throw (e : exn).
Arguments Return {A} a.
Arguments Throw {A} e.

(** ** JavaScript values and property reads *)

(** A value as a property read may yield it. *)
Inductive jsvalue : Type :=
  | Data (d : value)                        (* JSON data, or a text the code built *)
  | Builtin (name : string)                 (* a built-in function or object, named by
                                               a path that leads to it *)
  | Obj (fields : gmap string jsvalue).     (* an object built by the code, with the
                                               prototype of an object literal *)

Coercion Data : value >-> jsvalue.

(** ToBoolean: every object and every function is truthy. *)
Definition ToBoolean (v : jsvalue) : bool :=
  match v with
  | Data d => truthy d
  | Builtin _ | Obj _ => true
  end.

Definition if_ToBoolean (o : option jsvalue) : option jsvalue :=
  match o with
  | Some v => if ToBoolean v then Some v else None
  | None => None
  end.

(** The prototype chains a value of this code can start from. *)
Inductive kind : Type :=
  | KObject     (* Object.prototype *)
  | KArray      (* Array.prototype, then Object.prototype *)
  | KString     (* String.prototype, then Object.prototype *)
  | KNumber     (* Number.prototype, then Object.prototype *)
  | KBoolean.   (* Boolean.prototype, then Object.prototype *)

(** What the JavaScript runtime decides. *)
Class Runtime : Type := {
  (** the member of the given name found along a prototype chain, [None] when
      the chain has none ([toString], [constructor], [__proto__], ... are
      members of every chain) *)
  inherited : kind -> string -> option jsvalue;
  (** [f[k]] for a built-in [f]: a read that may throw, as [caller] and
      [arguments] of a built-in function do *)
  builtinGet : string -> string -> outcome (option jsvalue);
  (** whether ToString throws on a value that is not a primitive, as it does
      on an object whose own [toString] is not a function *)
  toStringThrows : jsvalue -> bool
}.

(** ** The world around the module *)

(** The state of the Pinia store [useLanguageStore].  [messages] is the
    object the store holds, given by its own fields. *)
Record LanguageState : Type := {
  currentLocale : string;
  messages : gmap string jsvalue;
  supportedLocales : list string;
  isLoading : bool
}.

(** Everything the code reads and writes. *)
Record World : Type := {
  store : LanguageState;
  userLanguage : option string;      (* localStorage entry 'user-language' *)
  translations : gmap string value;  (* object store 'translations' of 'language-store' *)
  documentLang : string;             (* document.documentElement.lang *)
  fetchCount : nat                   (* calls of [fetch] issued so far *)
}.

(** What the network answers to one [fetch]. *)
Inductive body : Type :=
  | Malformed
  | Json (v : value).

Inductive response : Type :=
  | Rejected
  | Response (ok : bool) (status : Z) (b : body).

(** What the code does not control: the build-time base URL, the remote
    origin, and whether the two browser stores work. *)
Record Env : Type := {
  CDN_BASE_URL : string;                (* import.meta.env.VITE_LOCALAZY_BASE_URL *)
  network : string -> response;         (* by URL *)
  dbOpens : bool;                       (* [dbPromise] resolves *)
  dbGets : bool;
  dbPuts : bool;
  dbClears : bool;
  localStorageReads : bool;
  localStorageWrites : bool
}.

(** Both stores work. *)
Definition storage_works (env : Env) : bool :=
  dbOpens env && dbGets env && dbPuts env && dbClears env
  && localStorageReads env && localStorageWrites env.

(** The initial state of the store, [state()]. *)
Definition initialState : LanguageState :=
  {| currentLocale := "en"; messages := ∅;
     supportedLocales := ["en"; "es"; "fr"]; isLoading := false |}.

(** ** Actions: state and exceptions *)

Definition M (A : Type) : Type := World -> outcome A * World.

#[global] Instance M_ret : MRet M := fun A a w => (Return a, w).
#[global] Instance M_bind : MBind M := fun A B f m w =>
  match m w with
  | (Return a, w') => f a w'
  | (Throw e, w') => (Throw e, w')
  end.

Definition throw {A : Type} (e : exn) : M A := fun w => (Throw e, w).

(** A computation that neither reads nor writes the world. *)
Definition lift {A : Type} (r : outcome A) : M A := fun w => (r, w).

(** [try { body } catch (error) { handler }] *)
Definition try_catch {A : Type} (body : M A) (handler : exn -> M A) : M A := fun w =>
  match body w with
  | (Return a, w') => (Return a, w')
  | (Throw e, w') => handler e w'
  end.

(** [try { body } finally { fin }] *)
Definition try_finally {A : Type} (body : M A) (fin : M unit) : M A := fun w =>
  match body w with
  | (r, w') =>
      match fin w' with
      | (Return _, w'') => (r, w'')
      | (Throw e, w'') => (Throw e, w'')
      end
  end.

Definition gets {A : Type} (f : World -> A) : M A := fun w => (Return (f w), w).
Definition modify (f : World -> World) : M unit := fun w => (Return tt, f w).

Definition with_store (f : LanguageState -> LanguageState) (w : World) : World :=
  {| store := f (store w); userLanguage := userLanguage w;
     translations := translations w; documentLang := documentLang w;
     fetchCount := fetchCount w |}.

Definition set_isLoading (b : bool) : M unit :=
  modify (with_store (fun s =>
    {| currentLocale := currentLocale s; messages := messages s;
       supportedLocales := supportedLocales s; isLoading := b |})).

Definition with_messages (m : gmap string jsvalue) (w : World) : World :=
  with_store (fun s =>
    {| currentLocale := currentLocale s; messages := m;
       supportedLocales := supportedLocales s; isLoading := isLoading s |}) w.

Definition set_messages (m : gmap string jsvalue) : M unit :=
  modify (with_messages m).

Definition set_currentLocale (l : string) : M unit :=
  modify (with_store (fun s =>
    {| currentLocale := l; messages := messages s;
       supportedLocales := supportedLocales s; isLoading := isLoading s |})).

Definition set_documentLang (l : string) : M unit :=
  modify (fun w =>
    {| store := store w; userLanguage := userLanguage w;
       translations := translations w; documentLang := l;
       fetchCount := fetchCount w |}).

(** [localStorage.getItem('user-language')] and
    [localStorage.setItem('user-language', l)] *)
Definition localStorage_getItem (env : Env) : M (option string) :=
  if localStorageReads env then gets userLanguage else throw LocalStorageError.

Definition localStorage_setItem (env : Env) (l : string) : M unit :=
  if localStorageWrites env then
    modify (fun w =>
      {| store := store w; userLanguage := Some l;
         translations := translations w; documentLang := documentLang w;
         fetchCount := fetchCount w |})
  else throw LocalStorageError.

(** [await dbPromise], [db.get('translations', k)], [db.clear('translations')]
    and [db.put('translations', v, k)] *)
Definition dbPromise (env : Env) : M unit :=
  if dbOpens env then mret tt else throw StorageError.

Definition with_translations (f : gmap string value -> gmap string value)
    (w : World) : World :=
  {| store := store w; userLanguage := userLanguage w;
     translations := f (translations w); documentLang := documentLang w;
     fetchCount := fetchCount w |}.

Definition db_get (env : Env) (k : string) : M (option value) :=
  if dbGets env then gets (fun w => translations w !! k) else throw StorageError.

Definition db_clear (env : Env) : M unit :=
  if dbClears env then modify (with_translations (fun _ => ∅)) else throw StorageError.

Definition db_put (env : Env) (v : value) (k : string) : M unit :=
  if dbPuts env then modify (with_translations (insert k v)) else throw StorageError.

(** [fetch(url)]: one more network retrieval, whatever its result. *)
Definition fetch (env : Env) (url : string) : M response := fun w =>
  (Return (network env url),
   {| store := store w; userLanguage := userLanguage w;
      translations := translations w; documentLang := documentLang w;
      fetchCount := S (fetchCount w) |}).

(** [x || 'en'] on what [getItem] returned ([null] when there is no entry). *)
Definition or_en (stored : option string) : string :=
  match stored with
  | Some l => if String.eqb l "" then "en" else l
  | None => "en"
  end.

(** ** The local cache (services/db.ts) *)

Definition languageDB_get (env : Env) (locale : string) : M (option value) :=
  dbPromise env;;
  stored ← localStorage_getItem env;
  let currentLanguage := or_en stored in
  if String.eqb currentLanguage locale then db_get env "current"
  else mret None.

Definition languageDB_set (env : Env) (locale : string) (translations : value) : M unit :=
  dbPromise env;;
  stored ← localStorage_getItem env;
  let currentLanguage := or_en stored in
  (if negb (String.eqb currentLanguage "") && negb (String.eqb currentLanguage locale)
   then db_clear env else mret tt);;
  db_put env translations "current".

Definition languageDB_clear (env : Env) : M unit :=
  dbPromise env;;
  db_clear env.

Definition getCurrentLanguage (w : World) : string :=
  or_en (userLanguage w).

(** ** The content loader (services/languageService.ts) *)

Definition endpoint (env : Env) (locale : string) : string :=
  CDN_BASE_URL env ++ "/" ++ locale ++ "/en.json".

(** [Object.keys(v)] throws on [null]; its result is only logged. *)
Definition Object_keys_check (v : value) : M unit :=
  match v with
  | VNull => throw TypeError
  | _ => mret tt
  end.

Definition loadLanguage (env : Env) (locale : string) : M value :=
  if String.eqb locale "en" then mret (VObj ∅)
  else
    cached ← languageDB_get env locale;
    match if_truthy cached with
    | Some cached => mret cached
    | None =>
        try_catch
          (let url := endpoint env locale in
           response ← fetch env url;
           match response with
           | Rejected => throw NetworkError
           | Response ok status b =>
               if negb ok then throw (HttpError status)
               else
                 match b with
                 | Malformed => throw SyntaxError
                 | Json translations =>
                     Object_keys_check translations;;
                     languageDB_set env locale translations;;
                     mret translations
                 end
           end)
          (fun error => mret (VObj ∅))
    end.

(** ** Statistics, parameters and fallbacks of the caption provider *)

(** [translationStats] of one provider instance. *)
Record TranslationStats : Type := {
  storeHits : nat;
  fallbackHits : nat;
  missingKeys : nat
}.

Definition noStats : TranslationStats :=
  {| storeHits := 0; fallbackHits := 0; missingKeys := 0 |}.

(** A value of [params: Record<string, string | number>] and [String(value)].
    Numbers are integers below 10^21 in magnitude, which [String] prints in
    plain decimal. *)
Inductive param_value : Type :=
  | PStr (s : string)
  | PNum (n : Z).

Definition String_ (p : param_value) : string :=
  match p with
  | PStr s => s
  | PNum n => pretty n
  end.

(** The [forEach] over [Object.entries(params)]: the entries are taken in the
    order [Object.entries] lists them. *)
Definition interpolate (params : list (string * param_value)) (translation : string) : string :=
  fold_left
    (fun translation '(paramKey, paramValue) =>
       replace translation ("{" ++ paramKey ++ "}") (String_ paramValue))
    params translation.

(** Where [caption] took its text from. *)
Inductive source : Type :=
  | FromStore
  | FromEnglish
  | FromCustomFallback
  | FromKey.

Definition tally (src : source) (st : TranslationStats) : TranslationStats :=
  match src with
  | FromStore =>
      {| storeHits := S (storeHits st); fallbackHits := fallbackHits st;
         missingKeys := missingKeys st |}
  | FromEnglish =>
      {| storeHits := storeHits st; fallbackHits := S (fallbackHits st);
         missingKeys := missingKeys st |}
  | FromCustomFallback | FromKey =>
      {| storeHits := storeHits st; fallbackHits := fallbackHits st;
         missingKeys := S (missingKeys st) |}
  end.

(** [fallback || key] and [fallback ? 'Custom Fallback' : 'Key as Fallback']. *)
Definition fallback_or_key (fallback : option string) (key : string) : string * source :=
  match fallback with
  | Some f => if String.eqb f "" then (key, FromKey) else (f, FromCustomFallback)
  | None => (key, FromKey)
  end.

(** [if (params && typeof translation === 'string') ...]. *)
Definition interpolateParams (params : option (list (string * param_value)))
    (translation : jsvalue) : jsvalue :=
  match params, translation with
  | Some ps, Data (VStr t) => Data (VStr (interpolate ps t))
  | _, _ => translation
  end.

(** [total] of [logTranslationStats]: the number of events counted. *)
Definition total (st : TranslationStats) : nat :=
  storeHits st + fallbackHits st + missingKeys st.

(** [Capacitor.isNativePlatform()] and what [Device.getLanguageCode()]
    resolves to ([None] when the probe rejects). *)
Record Platform : Type := {
  isNativePlatform : bool;
  getLanguageCode : option string
}.

(** [x || other] on what [getItem] returned. *)
Definition or_else (stored : option string) (other : string) : string :=
  match stored with
  | Some l => if String.eqb l "" then other else l
  | None => other
  end.

Definition defaultSections : list string := ["common"; "error"; "footer"].

(** [sectionsToLoad]: the default sections, then [uiSection] when it is given,
    not the empty string, and not one of them. *)
Definition sectionsToLoad (uiSection : option string) : list string :=
  match uiSection with
  | Some s =>
      if negb (String.eqb s "") && negb (bool_decide (s ∈ defaultSections))
      then defaultSections ++ [s]
      else defaultSections
  | None => defaultSections
  end.

(** [obj[k] = v] on an object built from a literal: a field of its own, new
    or overwritten; under the name [__proto__] the write goes to the setter
    the object inherits, which sets no field. *)
Definition assign (obj : gmap string jsvalue) (k : string) (v : jsvalue) : gmap string jsvalue :=
  if String.eqb k "__proto__" then obj else <[k := v]> obj.

Section WithRuntime.
Context {rt : Runtime}.

(** ** Property reads *)

(** The own property [k] of a value. *)
Definition own (v : jsvalue) (k : string) : option jsvalue :=
  match v with
  | Data d => Data <$> ownProperty d k
  | Obj fields => fields !! k
  | Builtin _ => None
  end.

(** An own property, or else the member inherited along the chain. *)
Definition orInherited (o : option jsvalue) (chain : kind) (k : string) : option jsvalue :=
  match o with
  | Some v => Some v
  | None => inherited chain k
  end.

(** [v[k]]: [undefined] is [None]; a read on [null] throws. *)
Definition getProp (v : jsvalue) (k : string) : outcome (option jsvalue) :=
  match v with
  | Data VNull => Throw TypeError
  | Data (VObj _) | Obj _ => Return (orInherited (own v k) KObject k)
  | Data (VArr _) => Return (orInherited (own v k) KArray k)
  | Data (VStr _) => Return (orInherited (own v k) KString k)
  | Data (VNum _) => Return (orInherited (own v k) KNumber k)
  | Data (VBool _) => Return (orInherited (own v k) KBoolean k)
  | Builtin name => builtinGet name k
  end.

(** Whether the template literal [`${v}`] throws: never on a primitive. *)
Definition templateThrows (v : jsvalue) : bool :=
  match v with
  | Data (VNull | VBool _ | VNum _ | VStr _) => false
  | _ => toStringThrows v
  end.

(** ** The caption provider (useCaptionProvider) *)

(** [getNestedValue(obj, path)]: walk [obj] along the dot-separated [path].
    The loop body is [if (current && current[key] !== undefined) current =
    current[key] else return undefined]. *)
Fixpoint getNestedValue_loop (current : jsvalue) (keys : list string)
    : outcome (option jsvalue) :=
  match keys with
  | [] => Return (Some current)
  | key :: keys' =>
      if ToBoolean current then
        match getProp current key with
        | Return (Some next) => getNestedValue_loop next keys'
        | Return None => Return None
        | Throw e => Throw e
        end
      else Return None
  end.

Definition getNestedValue (obj : jsvalue) (path : string) : outcome (option jsvalue) :=
  getNestedValue_loop obj (split "." path).

(** The [try] block of [caption(key, fallback, params)]: what it returns or
    throws, and the statistics as they stand then.  [messages] is
    [languageStore.messages], [englishFallbacks] the bundled [locale/en.json].
    In the two branches that found a value the counter is incremented before
    the value is written into the log line. *)
Definition caption_try (messages englishFallbacks : jsvalue) (stats : TranslationStats)
    (key : string) (fallback : option string)
    (params : option (list (string * param_value)))
    : outcome jsvalue * TranslationStats :=
  match getNestedValue messages key with
  | Throw e => (Throw e, stats)
  | Return storeTranslation =>
      match if_ToBoolean storeTranslation with
      | Some translation =>
          let stats := tally FromStore stats in
          if templateThrows translation then (Throw TypeError, stats)
          else (Return (interpolateParams params translation), stats)
      | None =>
          match getNestedValue englishFallbacks key with
          | Throw e => (Throw e, stats)
          | Return fallbackTranslation =>
              match if_ToBoolean fallbackTranslation with
              | Some translation =>
                  let stats := tally FromEnglish stats in
                  if templateThrows translation then (Throw TypeError, stats)
                  else (Return (interpolateParams params translation), stats)
              | None =>
                  let '(translation, src) := fallback_or_key fallback key in
                  (Return (interpolateParams params (VStr translation)), tally src stats)
              end
          end
      end
  end.

(** [caption(key, fallback, params)]: the returned value and the updated
    statistics.  The [catch] returns [fallback || key]. *)
Definition caption (messages englishFallbacks : jsvalue) (stats : TranslationStats)
    (key : string) (fallback : option string)
    (params : option (list (string * param_value))) : jsvalue * TranslationStats :=
  match caption_try messages englishFallbacks stats key fallback params with
  | (Return translation, stats) => (translation, stats)
  | (Throw error, stats) => (Data (VStr (fst (fallback_or_key fallback key))), stats)
  end.

(** [hasTranslation(key)]: [getNestedValue(messages, key) !== undefined],
    under no [try]. *)
Definition hasTranslation (messages : jsvalue) (key : string) : outcome bool :=
  match getNestedValue messages key with
  | Return (Some _) => Return true
  | Return None => Return false
  | Throw e => Throw e
  end.

(** [captions(keys)]: one [caption(key)] per key, in order, each assigned to
    [result[key]]. *)
Definition captions (messages englishFallbacks : jsvalue) (stats : TranslationStats)
    (keys : list string) : gmap string jsvalue * TranslationStats :=
  fold_left
    (fun '(result, st) key =>
       let '(t, st') := caption messages englishFallbacks st key None None in
       (assign result key t, st'))
    keys (∅, stats).

(** ** The locale store (stores/language.ts) *)

(** [allMessages[k]] on what the loader returned. *)
Definition readProp (obj : value) (k : string) : M (option jsvalue) :=
  lift (getProp obj k).

(** The [for (const section of sectionsToLoad)] loop. *)
Fixpoint filterSections (allMessages : value) (sections : list string)
    (filteredMessages : gmap string jsvalue) : M (gmap string jsvalue) :=
  match sections with
  | [] => mret filteredMessages
  | section :: rest =>
      v ← readProp allMessages section;
      match if_ToBoolean v with
      | Some v => filterSections allMessages rest (assign filteredMessages section v)
      | None => filterSections allMessages rest filteredMessages
      end
  end.

Definition setAndLoadLanguage (env : Env) (locale : string)
    (uiSection : option string) : M unit :=
  set_isLoading true;;
  try_finally
    (try_catch
       (allMessages ← loadLanguage env locale;
        filteredMessages ← filterSections allMessages (sectionsToLoad uiSection) ∅;
        set_messages filteredMessages;;
        set_currentLocale locale;;
        localStorage_setItem env locale;;
        set_documentLang locale)
       (fun error => set_messages ∅))
    (set_isLoading false).

(** [initializeLanguage()].  The first read of the preference stands before
    the [try]; the probe, the test against [supportedLocales] and the second
    read stand inside it, and its [catch] only logs, which leaves
    [initialLocale] as it was. *)
Definition initializeLanguage (platform : Platform) (env : Env) : M unit :=
  stored ← localStorage_getItem env;
  let initialLocale := or_en stored in
  initialLocale ←
    (if isNativePlatform platform then
       try_catch
         (match getLanguageCode platform with
          | Some code =>
              let langCode := substring 0 2 code in
              supported ← gets (fun w => supportedLocales (store w));
              if bool_decide (langCode ∈ supported) then
                stored ← localStorage_getItem env;
                mret (or_else stored langCode)
              else mret initialLocale
          | None => mret initialLocale
          end)
         (fun e => mret initialLocale)
     else mret initialLocale);
  setAndLoadLanguage env initialLocale None.

(** [loadAdditionalSection(sectionName)]: the new [messages] is the literal
    [{ ...this.messages, [sectionName]: allMessages[sectionName] }], whose
    computed key defines a field of its own under every name. *)
Definition loadAdditionalSection (env : Env) (sectionName : string) : M unit :=
  current ← gets (fun w => currentLocale (store w));
  if String.eqb current "en" then mret tt
  else
    set_isLoading true;;
    try_finally
      (try_catch
         (current ← gets (fun w => currentLocale (store w));
          allMessages ← loadLanguage env current;
          v ← readProp allMessages sectionName;
          match if_ToBoolean v with
          | Some v =>
              old ← gets (fun w => messages (store w));
              set_messages (<[sectionName := v]> old)
          | None => mret tt
          end)
         (fun error => mret tt))
      (set_isLoading false).

(** [isSectionLoaded(section)]: [this.messages[section] !== undefined]. *)
Definition isSectionLoaded (w : World) (section : string) : bool :=
  match getProp (Obj (messages (store w))) section with
  | Return (Some _) => true
  | _ => false
  end.

(** The provider's [loadSection(section)]: [loadAdditionalSection] under a
    [try] whose [catch] only logs. *)
Definition loadSection (env : Env) (section : string) : M unit :=
  try_catch (loadAdditionalSection env section) (fun error => mret tt).

(** [d[k]] for a datum [d] other than [null], on which no read throws. *)
Definition member (d : value) (k : string) : option jsvalue :=
  match getProp d k with
  | Return o => o
  | Throw _ => None
  end.

(** ** The specification's reading of the fallback chain *)

(** [resolve] as the specification words it: the first source in which the
    key is found (with a defined value) wins, and an explicit fallback is used
    whenever one is passed. *)
Definition resolve_spec (messages englishFallbacks : jsvalue) (stats : TranslationStats)
    (key : string) (fallback : option string) : jsvalue * TranslationStats :=
  match getNestedValue messages key with
  | Return (Some v) => (v, tally FromStore stats)
  | _ =>
      match getNestedValue englishFallbacks key with
      | Return (Some v) => (v, tally FromEnglish stats)
      | _ =>
          match fallback with
          | Some f => (Data (VStr f), tally FromCustomFallback stats)
          | None => (Data (VStr key), tally FromKey stats)
          end
      end
  end.

End WithRuntime.

Definition clearLanguageCache (env : Env) : M unit :=
  languageDB_clear env.

(** The section names [activate] is specified to retain: the baseline, plus
    the requested section; an empty name counts as no request. *)
Definition retained (requested : option string) : gset string :=
  {[ "common"; "error"; "footer" ]} ∪
  match requested with
  | Some s => if String.eqb s "" then ∅ else {[ s ]}
  | None => ∅
  end.

(** Whether a character stands in a text. *)
Fixpoint occurs (c : ascii) (s : string) : bool :=
  match s with
  | EmptyString => false
  | String d rest => Ascii.eqb c d || occurs c rest
  end.

(** ** A runtime for the examples *)

(** The members of [Object.prototype], which ends every prototype chain. *)
Definition objectPrototypeNames : list string :=
  ["constructor"; "hasOwnProperty"; "isPrototypeOf"; "propertyIsEnumerable";
   "toLocaleString"; "toString"; "valueOf"; "__defineGetter__"; "__defineSetter__";
   "__lookupGetter__"; "__lookupSetter__"; "__proto__"].

Definition constructorName (chain : kind) : string :=
  match chain with
  | KObject => "Object"
  | KArray => "Array"
  | KString => "String"
  | KNumber => "Number"
  | KBoolean => "Boolean"
  end.

(** ToString on a datum throws when it meets an object with a field
    [toString] of its own, which is no function: on such an object, and on an
    array that holds one. *)
Fixpoint dataToStringThrows (d : value) : bool :=
  match d with
  | VObj fields => bool_decide (is_Some (fields !! "toString"))
  | VArr items => existsb dataToStringThrows items
  | VNull | VBool _ | VNum _ | VStr _ => false
  end.

(** The part of a browser's runtime that the examples meet: the twelve names
    every value finds at the end of its prototype chain, each leading to a
    built-in named by its path ([constructor] to the constructor,
    [__proto__] to the prototype); of the reads on a built-in, the [name] of
    a constructor, and its [caller] and [arguments], which throw.  The many
    other members of the built-ins are not listed, and no example reads
    one. *)
#[global] Instance browserRuntime : Runtime := {|
  inherited := fun chain k =>
    if bool_decide (k ∈ objectPrototypeNames) then
      Some (Builtin
              (if String.eqb k "constructor" then constructorName chain
               else if String.eqb k "__proto__" then constructorName chain ++ ".prototype"
               else constructorName chain ++ ".prototype." ++ k))
    else None;
  builtinGet := fun name k =>
    if bool_decide (name ∈ ["Object"; "Array"; "String"; "Number"; "Boolean"]) then
      if String.eqb k "name" then Return (Some (Data (VStr name)))
      else if String.eqb k "caller" || String.eqb k "arguments" then Throw TypeError
      else Return None
    else Return None;
  toStringThrows := fun v =>
    match v with
    | Data d => dataToStringThrows d
    | Builtin _ | Obj _ => false
    end
|}.

(** ** Sample data: the documents of the specification's examples *)

Definition spanishContent : value :=
  VObj {[ "common" := VObj {[ "save" := VStr "Guardar" ]} ]}.

Definition englishSample : value :=
  VObj {[ "common" := VObj {[ "cancel" := VStr "Cancel" ]} ]}.

Definition fullDocument : gmap string value :=
  {[ "common" := VObj {[ "save" := VStr "Guardar" ]};
     "error" := VObj {[ "generic" := VStr "Algo ha fallado" ]};
     "footer" := VObj {[ "rights" := VStr "Todos los derechos reservados" ]};
     "dashboard" := VObj {[ "welcome" := VStr "Bienvenido, {name}!" ]};
     "settings" := VObj {[ "title" := VStr "Ajustes" ]} ]}.

Definition frenchDocument : gmap string value :=
  {[ "common" := VObj {[ "save" := VStr "Enregistrer" ]} ]}.

(** A browser whose stores work, in front of an origin that serves the two
    documents above. *)
Definition online : Env :=
  {| CDN_BASE_URL := "https://cdn.example";
     network := fun url =>
       if String.eqb url "https://cdn.example/es/en.json"
       then Response true 200 (Json (VObj fullDocument))
       else if String.eqb url "https://cdn.example/fr/en.json"
       then Response true 200 (Json (VObj frenchDocument))
       else Response false 404 Malformed;
     dbOpens := true; dbGets := true; dbPuts := true; dbClears := true;
     localStorageReads := true; localStorageWrites := true |}.

(** The same browser with no network. *)
Definition offline : Env :=
  {| CDN_BASE_URL := "https://cdn.example";
     network := fun _ => Rejected;
     dbOpens := true; dbGets := true; dbPuts := true; dbClears := true;
     localStorageReads := true; localStorageWrites := true |}.

(** A browser in which the IndexedDB database cannot be opened. *)
Definition withoutIndexedDB : Env :=
  {| CDN_BASE_URL := "https://cdn.example";
     network := network online;
     dbOpens := false; dbGets := false; dbPuts := false; dbClears := false;
     localStorageReads := true; localStorageWrites := true |}.

(** A browser whose IndexedDB opens, reads and clears but refuses to write. *)
Definition fullDisk : Env :=
  {| CDN_BASE_URL := "https://cdn.example";
     network := network online;
     dbOpens := true; dbGets := true; dbPuts := false; dbClears := true;
     localStorageReads := true; localStorageWrites := true |}.

(** A browser that cannot write to [localStorage]. *)
Definition readOnlyPreferences : Env :=
  {| CDN_BASE_URL := "https://cdn.example";
     network := network online;
     dbOpens := true; dbGets := true; dbPuts := true; dbClears := true;
     localStorageReads := true; localStorageWrites := false |}.

(** A browser that cannot read [localStorage]. *)
Definition withoutLocalStorage : Env :=
  {| CDN_BASE_URL := "https://cdn.example";
     network := network online;
     dbOpens := true; dbGets := true; dbPuts := true; dbClears := true;
     localStorageReads := false; localStorageWrites := false |}.

(** The world at application start, before any visit. *)
Definition freshWorld : World :=
  {| store := initialState; userLanguage := None; translations := ∅;
     documentLang := ""; fetchCount := 0 |}.

(** A world in which the marker and the stored document disagree: the marker
    says Spanish, the store holds the French document. *)
Definition mismatchedWorld : World :=
  {| store := initialState; userLanguage := Some "es";
     translations := {[ "current" := VObj frenchDocument ]};
     documentLang := "es"; fetchCount := 1 |}.

(** Worlds of a returning visitor: French chosen before, with nothing cached;
    and a preference for German, which is not a supported locale. *)
Definition frenchPreference : World :=
  {| store := initialState; userLanguage := Some "fr"; translations := ∅;
     documentLang := ""; fetchCount := 0 |}.

Definition germanPreference : World :=
  {| store := initialState; userLanguage := Some "de"; translations := ∅;
     documentLang := ""; fetchCount := 0 |}.

(** The world after a first visit that activated Spanish with no extra
    section. *)
Definition spanishWorld : World :=
  snd (setAndLoadLanguage online "es" None freshWorld).

(** A phone set to Mexican Spanish, a phone set to German, a phone whose
    probe fails, and a browser. *)
Definition spanishPhone : Platform :=
  {| isNativePlatform := true; getLanguageCode := Some "es-MX" |}.

Definition germanPhone : Platform :=
  {| isNativePlatform := true; getLanguageCode := Some "de-DE" |}.

Definition brokenPhone : Platform :=
  {| isNativePlatform := true; getLanguageCode := None |}.

Definition browser : Platform :=
  {| isNativePlatform := false; getLanguageCode := None |}.

(** ** Proof tools *)

(** Running an action symbolically: unfold the monad and the primitive
    operations, then split on the flags and answers the code branches on. *)
Ltac unfold_M :=
  unfold mbind, mret, M_bind, M_ret, throw, lift, try_catch, try_finally, gets, modify in *.

Ltac unfold_io :=
  unfold languageDB_get, languageDB_set, languageDB_clear, dbPromise,
    localStorage_getItem, localStorage_setItem, db_get, db_clear, db_put, fetch,
    Object_keys_check, readProp, set_isLoading, set_messages, with_messages,
    set_currentLocale, set_documentLang in *.

Ltac case_step :=
  match goal with
  | |- context [if ?c then _ else _] => destruct c eqn:?
  | |- context [match ?x with _ => _ end] =>
      first [ is_var x; destruct x
            | match x with
              | if_truthy _ => destruct x eqn:?
              | network _ _ => destruct x eqn:?
              end ]
  end.

Ltac run := unfold_io; unfold_M; simpl; repeat (case_step; simpl in *; try congruence; try reflexivity).

(** Reads are rewritten, not unfolded. *)
Arguments getProp : simpl never.

(** ** The model at work on small inputs *)

Example split_examples :
  split "." "common.save" = ["common"; "save"]
  /\ split "." "" = [""]
  /\ split "." "a..b." = ["a"; ""; "b"; ""].
Proof. repeat split. Qed.

Example replace_examples :
  replace "a-b-a" "a" "x" = "x-b-a"
  /\ replace "abc" "z" "x" = "abc"
  /\ replace "abc" "b" "[$&$$$1]" = "a[b$$1]c".
Proof. repeat split. Qed.

(** Own properties first, then the members of the prototypes: a document has
    no field [constructor], yet the walk finds one, and goes on into it. *)
Example getNestedValue_examples :
  getNestedValue spanishContent "common.save" = Return (Some (Data (VStr "Guardar")))
  /\ getNestedValue spanishContent "common"
     = Return (Some (Data (VObj {[ "save" := VStr "Guardar" ]})))
  /\ getNestedValue spanishContent "common.cancel" = Return None
  /\ getNestedValue spanishContent "common.save.title" = Return None
  /\ getNestedValue spanishContent "" = Return None
  /\ getNestedValue spanishContent "common.save.length" = Return (Some (Data (VNum 7)))
  /\ getNestedValue spanishContent "toString"
     = Return (Some (Builtin "Object.prototype.toString"))
  /\ getNestedValue spanishContent "constructor.name" = Return (Some (Data (VStr "Object")))
  /\ getNestedValue spanishContent "constructor.caller" = Throw TypeError.
Proof. repeat split. Qed.

(** ** Strings *)

(** [append] does not unfold under [simpl]; its two equations. *)
Lemma append_nil_l (s : string) : "" ++ s = s.
Proof. reflexivity. Qed.

Lemma append_cons c (s t : string) : String c s ++ t = String c (s ++ t).
Proof. reflexivity. Qed.

Lemma prefix_drop_chars pat : forall s,
  String.prefix pat s = true -> s = pat ++ drop_chars (String.length pat) s.
Proof.
  induction pat as [|c pat IH]; intros s H; [reflexivity|].
  destruct s as [|d s]; [discriminate|]. simpl in H.
  destruct (Ascii.ascii_dec c d) as [->|]; [|discriminate].
  rewrite append_cons. simpl. f_equal. apply IH, H.
Qed.

Lemma prefix_app pat after : String.prefix pat (pat ++ after) = true.
Proof.
  induction pat as [|c pat IH]; [rewrite append_nil_l; destruct after; reflexivity|].
  rewrite append_cons. simpl.
  destruct (Ascii.ascii_dec c c); [exact IH|contradiction].
Qed.

Lemma find_first_eq pat s :
  find_first pat s =
  if String.prefix pat s then Some (EmptyString, drop_chars (String.length pat) s)
  else match s with
       | EmptyString => None
       | String c rest =>
           match find_first pat rest with
           | Some (before, after) => Some (String c before, after)
           | None => None
           end
       end.
Proof. destruct s; reflexivity. Qed.

(** [find_first] splits the text at an occurrence of the pattern, and no
    occurrence starts further left; it finds none only when there is none. *)
Lemma find_first_spec pat : forall s,
  match find_first pat s with
  | Some (before, after) =>
      s = before ++ pat ++ after
      /\ forall before' after', s = before' ++ pat ++ after' ->
           String.length before <= String.length before'
  | None => forall before' after', s <> before' ++ pat ++ after'
  end.
Proof.
  assert (Hhead : forall s after', String.prefix pat s = false -> s <> "" ++ pat ++ after').
  { intros s after' Hp ->. rewrite append_nil_l, prefix_app in Hp. discriminate. }
  induction s as [|c s IH]; rewrite find_first_eq.
  - destruct (String.prefix pat "") eqn:Hp.
    + split; [rewrite append_nil_l; apply (prefix_drop_chars pat _ Hp)|].
      intros; simpl; lia.
    + intros before' after' H. destruct before' as [|d before'].
      * exact (Hhead _ _ Hp H).
      * rewrite append_cons in H. discriminate.
  - destruct (String.prefix pat (String c s)) eqn:Hp.
    + split; [rewrite append_nil_l; apply (prefix_drop_chars pat _ Hp)|].
      intros; simpl; lia.
    + destruct (find_first pat s) as [[before after]|].
      * destruct IH as [Heq Hmin]. split; [rewrite append_cons; congruence|].
        intros before' after' H. destruct before' as [|d before'].
        -- exfalso. exact (Hhead _ _ Hp H).
        -- rewrite append_cons in H. injection H as _ H. simpl.
           apply le_n_S. eapply Hmin, H.
      * intros before' after' H. destruct before' as [|d before'].
        -- exact (Hhead _ _ Hp H).
        -- rewrite append_cons in H. injection H as _ H. exact (IH _ _ H).
Qed.

(** [replace] rewrites the leftmost occurrence of the pattern and nothing
    else; a text without the pattern comes back as it is. *)
Lemma replace_spec s pat replacement :
  (exists before after,
     s = before ++ pat ++ after
     /\ (forall before' after', s = before' ++ pat ++ after' ->
           String.length before <= String.length before')
     /\ replace s pat replacement
        = before ++ getSubstitution pat before after replacement ++ after)
  \/ ((forall before' after', s <> before' ++ pat ++ after')
      /\ replace s pat replacement = s).
Proof.
  unfold replace. pose proof (find_first_spec pat s) as H.
  destruct (find_first pat s) as [[before after]|].
  - left. exists before, after. destruct H. auto.
  - right. auto.
Qed.

(** A replacement text without a dollar sign stands for itself. *)
Lemma getSubstitution_plain matched before after : forall replacement,
  (forall before' after', replacement <> before' ++ "$" ++ after') ->
  getSubstitution matched before after replacement = replacement.
Proof.
  induction replacement as [|c r IH]; intros Hplain; [reflexivity|].
  assert (Hc : c <> "$"%char).
  { intros ->. apply (Hplain "" r). reflexivity. }
  assert (Hr : getSubstitution matched before after r = r).
  { apply IH. intros before' after' ->. apply (Hplain (String c before') after').
    reflexivity. }
  simpl.
  destruct c as [[] [] [] [] [] [] [] []]; try (rewrite Hr; reflexivity).
  contradiction Hc. reflexivity.
Qed.

(** ** Truthiness *)

(** [if (x)] takes the branch exactly for a defined, truthy [x]. *)
Lemma if_truthy_Some o v :
  if_truthy o = Some v <-> o = Some v /\ truthy v = true.
Proof.
  unfold if_truthy. destruct o as [x|]; [|intuition congruence].
  destruct (truthy x) eqn:Hx; split.
  - intros [= ->]. auto.
  - intros [[= ->] _]. reflexivity.
  - discriminate.
  - intros [[= ->] ?]. congruence.
Qed.

(** [if (x)] on what a read gave. *)
Lemma if_ToBoolean_Some o v :
  if_ToBoolean o = Some v <-> o = Some v /\ ToBoolean v = true.
Proof.
  unfold if_ToBoolean. destruct o as [x|]; [|intuition congruence].
  destruct (ToBoolean x) eqn:Hx; split.
  - intros [= ->]. auto.
  - intros [[= ->] _]. reflexivity.
  - discriminate.
  - intros [[= ->] ?]. congruence.
Qed.

(** ** The caption provider *)

(** [fallback || key]: the fallback when it is not empty, else the key. *)
Lemma fallback_or_key_given f key :
  f <> "" -> fallback_or_key (Some f) key = (f, FromCustomFallback).
Proof.
  intros Hf. unfold fallback_or_key.
  destruct (String.eqb_spec f ""); [contradiction|reflexivity].
Qed.

Lemma fallback_or_key_missing fallback key :
  fallback = None \/ fallback = Some "" -> fallback_or_key fallback key = (key, FromKey).
Proof. intros [-> | ->]; reflexivity. Qed.

(** The event counted with [fallback || key] is a missing key. *)
Lemma fallback_or_key_source fallback key :
  snd (fallback_or_key fallback key) = FromCustomFallback
  \/ snd (fallback_or_key fallback key) = FromKey.
Proof.
  unfold fallback_or_key. destruct fallback as [f|]; [destruct (String.eqb f "")|]; auto.
Qed.

(** The ways through [caption], one by one. *)
Lemma caption_store {rt : Runtime} messages english stats key fallback params v :
  getNestedValue messages key = Return (Some v) -> ToBoolean v = true ->
  caption messages english stats key fallback params =
  (if templateThrows v then Data (VStr (fst (fallback_or_key fallback key)))
   else interpolateParams params v,
   tally FromStore stats).
Proof.
  intros Hv Ht. unfold caption, caption_try. rewrite Hv.
  rewrite (proj2 (if_ToBoolean_Some _ _) (conj eq_refl Ht)).
  destruct (templateThrows v); reflexivity.
Qed.

Lemma caption_store_throws {rt : Runtime} messages english stats key fallback params e :
  getNestedValue messages key = Throw e ->
  caption messages english stats key fallback params =
  (Data (VStr (fst (fallback_or_key fallback key))), stats).
Proof. intros He. unfold caption, caption_try. rewrite He. reflexivity. Qed.

Lemma caption_not_store {rt : Runtime} messages english stats key fallback params o :
  getNestedValue messages key = Return o -> if_ToBoolean o = None ->
  caption messages english stats key fallback params =
  match getNestedValue english key with
  | Throw _ => (Data (VStr (fst (fallback_or_key fallback key))), stats)
  | Return o' =>
      match if_ToBoolean o' with
      | Some v =>
          (if templateThrows v then Data (VStr (fst (fallback_or_key fallback key)))
           else interpolateParams params v,
           tally FromEnglish stats)
      | None =>
          (interpolateParams params (VStr (fst (fallback_or_key fallback key))),
           tally (snd (fallback_or_key fallback key)) stats)
      end
  end.
Proof.
  intros Ho Hnone. unfold caption, caption_try. rewrite Ho, Hnone.
  destruct (getNestedValue english key) as [o'|e]; [|reflexivity].
  destruct (if_ToBoolean o') as [v|].
  - destruct (templateThrows v); reflexivity.
  - destruct (fallback_or_key fallback key). reflexivity.
Qed.

(** C1 (amended).  [caption] consults the loaded content, the bundled English
    document, the explicit fallback and the key in this order, and returns the
    first that yields a truthy value: the store value when it is found and
    truthy (one more store hit); else the English value when it is found and
    truthy (one more fallback hit); else the explicit fallback when it is given
    and not empty, else the key (one more missing key in both cases).  The
    parameters, if any, are then substituted into the text chosen.  When the
    [try] block throws, [caption] returns the explicit fallback if it is not
    empty and else the key: with nothing counted when a walk threw, with the
    hit counted when the value found could not be written into the log
    line. *)
Theorem caption_fallback_chain {rt : Runtime} messages english stats key fallback params :
  let result := caption messages english stats key fallback params in
  let inStore := getNestedValue messages key in
  let inEnglish := getNestedValue english key in
  let caught := Data (VStr (fst (fallback_or_key fallback key))) in
  (forall v, inStore = Return (Some v) -> ToBoolean v = true ->
     result = (if templateThrows v then caught else interpolateParams params v,
               tally FromStore stats))
  /\ (forall o, inStore = Return o -> if_ToBoolean o = None ->
      (forall v, inEnglish = Return (Some v) -> ToBoolean v = true ->
         result = (if templateThrows v then caught else interpolateParams params v,
                   tally FromEnglish stats))
      /\ (forall o', inEnglish = Return o' -> if_ToBoolean o' = None ->
          (forall f, fallback = Some f -> f <> "" ->
             result = (interpolateParams params (VStr f), tally FromCustomFallback stats))
          /\ (fallback = None \/ fallback = Some "" ->
              result = (interpolateParams params (VStr key), tally FromKey stats)))
      /\ (forall e, inEnglish = Throw e -> result = (caught, stats)))
  /\ (forall e, inStore = Throw e -> result = (caught, stats)).
Proof.
  cbv zeta. split; [|split].
  - intros v Hv Ht. apply caption_store; assumption.
  - intros o Ho Hnone. rewrite (caption_not_store _ _ _ _ _ _ _ Ho Hnone).
    split; [|split].
    + intros v -> Ht. rewrite (proj2 (if_ToBoolean_Some _ _) (conj eq_refl Ht)).
      reflexivity.
    + intros o' -> Hnone'. rewrite Hnone'. split.
      * intros f -> Hf. rewrite (fallback_or_key_given _ _ Hf). reflexivity.
      * intros Hf. rewrite (fallback_or_key_missing _ _ Hf). reflexivity.
    + intros e ->. reflexivity.
  - intros e He. apply caption_store_throws with e. exact He.
Qed.

(** The four resolutions of the specification's example, obtained from
    [caption_fallback_chain]. *)
Lemma caption_fallback_chain_examples :
  caption spanishContent englishSample noStats "common.save" None None
    = (Data (VStr "Guardar"), {| storeHits := 1; fallbackHits := 0; missingKeys := 0 |})
  /\ caption spanishContent englishSample noStats "common.cancel" None None
    = (Data (VStr "Cancel"), {| storeHits := 0; fallbackHits := 1; missingKeys := 0 |})
  /\ caption spanishContent englishSample noStats "unknown.key" (Some "N/A") None
    = (Data (VStr "N/A"), {| storeHits := 0; fallbackHits := 0; missingKeys := 1 |})
  /\ caption spanishContent englishSample noStats "unknown.key" None None
    = (Data (VStr "unknown.key"), {| storeHits := 0; fallbackHits := 0; missingKeys := 1 |}).
Proof.
  split; [|split; [|split]].
  - exact (proj1 (caption_fallback_chain spanishContent englishSample noStats
                    "common.save" None None) (Data (VStr "Guardar")) eq_refl eq_refl).
  - exact (proj1 (proj1 (proj2 (caption_fallback_chain spanishContent englishSample noStats
                    "common.cancel" None None)) None eq_refl eq_refl)
                 (Data (VStr "Cancel")) eq_refl eq_refl).
  - refine (proj1 (proj1 (proj2 (proj1 (proj2 (caption_fallback_chain spanishContent
                    englishSample noStats "unknown.key" (Some "N/A") None))
                    None _ eq_refl)) None _ eq_refl) "N/A" eq_refl _);
      [vm_compute; reflexivity | vm_compute; reflexivity | discriminate].
  - refine (proj2 (proj1 (proj2 (proj1 (proj2 (caption_fallback_chain spanishContent
                    englishSample noStats "unknown.key" None None))
                    None _ eq_refl)) None _ eq_refl) (or_introl eq_refl));
      vm_compute; reflexivity.
Defined.

(** C1, as stated, fails twice.  An explicit fallback that is the empty string
    is passed over for the key; and a key the loaded content holds with an
    empty text is resolved from the English document, as a fallback hit. *)
Lemma caption_first_match_counterexample :
  (caption (VObj ∅) (VObj ∅) noStats "unknown.key" (Some "") None
     = (Data (VStr "unknown.key"), {| storeHits := 0; fallbackHits := 0; missingKeys := 1 |})
   /\ resolve_spec (VObj ∅) (VObj ∅) noStats "unknown.key" (Some "")
     = (Data (VStr ""), {| storeHits := 0; fallbackHits := 0; missingKeys := 1 |}))
  /\ (caption (VObj {[ "common" := VObj {[ "save" := VStr "" ]} ]})
              (VObj {[ "common" := VObj {[ "save" := VStr "Save" ]} ]})
              noStats "common.save" None None
     = (Data (VStr "Save"), {| storeHits := 0; fallbackHits := 1; missingKeys := 0 |})
   /\ resolve_spec (VObj {[ "common" := VObj {[ "save" := VStr "" ]} ]})
              (VObj {[ "common" := VObj {[ "save" := VStr "Save" ]} ]})
              noStats "common.save" None
     = (Data (VStr ""), {| storeHits := 1; fallbackHits := 0; missingKeys := 0 |}))
  /\ caption (VObj ∅) (VObj ∅) noStats "unknown.key" (Some "") None
     <> resolve_spec (VObj ∅) (VObj ∅) noStats "unknown.key" (Some "").
Proof.
  split; [split; reflexivity|]. split; [split; reflexivity|].
  intros H. vm_compute in H. discriminate H.
Qed.

(** The [catch] of [caption] at work.  A stored object with a field
    [toString] of its own cannot be written into the log line: the store hit
    is counted and the key comes back.  A key that leads into a built-in and
    on to its [caller] makes the walk throw: the fallback comes back and
    nothing is counted.  And a key the store does not hold can still be found:
    [constructor.name] is the name of the constructor of every object. *)
Example caption_catch_examples :
  caption (VObj {[ "common" := VObj {[ "toString" := VStr "text" ]} ]}) (VObj ∅) noStats
          "common" None None
    = (Data (VStr "common"), {| storeHits := 1; fallbackHits := 0; missingKeys := 0 |})
  /\ caption (Obj ∅) (VObj ∅) noStats "constructor.caller" (Some "N/A") None
    = (Data (VStr "N/A"), noStats)
  /\ caption (Obj ∅) (VObj ∅) noStats "constructor.name" None None
    = (Data (VStr "Object"), {| storeHits := 1; fallbackHits := 0; missingKeys := 0 |})
  /\ hasTranslation (Obj ∅) "toString" = Return true
  /\ hasTranslation (Obj ∅) "constructor.caller" = Throw TypeError.
Proof. repeat split. Qed.

(** The specification's interpolation example, and the same template without
    [params]. *)
Example caption_interpolation_example :
  caption (VObj {[ "dashboard" := VObj {[ "welcome" := VStr "Welcome back, {name}!" ]} ]})
          (VObj ∅) noStats "dashboard.welcome" None (Some [("name", PStr "Ava")])
    = (Data (VStr "Welcome back, Ava!"),
       {| storeHits := 1; fallbackHits := 0; missingKeys := 0 |})
  /\ caption (VObj {[ "dashboard" := VObj {[ "welcome" := VStr "Welcome back, {name}!" ]} ]})
          (VObj ∅) noStats "dashboard.welcome" None None
    = (Data (VStr "Welcome back, {name}!"),
       {| storeHits := 1; fallbackHits := 0; missingKeys := 0 |}).
Proof. split; reflexivity. Qed.

(** C2 (the code at the failing input).  [String.prototype.replace] with a
    string pattern replaces one occurrence: of a placeholder that stands twice
    in the template, the second is left as it is. *)
Theorem caption_replaces_first_occurrence_only {rt : Runtime} :
  caption (VObj {[ "common" := VObj {[ "pair" := VStr "{name} and {name}" ]} ]})
          (VObj ∅) noStats "common.pair" None (Some [("name", PStr "Ava")])
    = (Data (VStr "Ava and {name}"), {| storeHits := 1; fallbackHits := 0; missingKeys := 0 |}).
Proof. reflexivity. Qed.

(** The event [caption] counts, seen from the store: a store hit exactly when
    the walk of the store found a truthy value. *)
Lemma caption_store_hit {rt : Runtime} messages english stats key fallback params :
  storeHits (snd (caption messages english stats key fallback params)) = S (storeHits stats)
  <-> exists v, getNestedValue messages key = Return (Some v) /\ ToBoolean v = true.
Proof.
  destruct (getNestedValue messages key) as [o|e] eqn:Hs.
  - destruct (if_ToBoolean o) as [t|] eqn:Ho.
    + apply if_ToBoolean_Some in Ho. destruct Ho as [-> Ht].
      rewrite (caption_store _ _ _ _ _ _ _ Hs Ht). simpl. split; eauto.
    + assert (Hno : ~ exists v, Return o = Return (Some v) /\ ToBoolean v = true).
      { intros (v & [= ->] & Ht).
        rewrite (proj2 (if_ToBoolean_Some _ _) (conj eq_refl Ht)) in Ho. discriminate. }
      rewrite (caption_not_store _ _ _ _ _ _ _ Hs Ho).
      destruct (getNestedValue english key) as [o'|e']; simpl.
      * destruct (if_ToBoolean o'); simpl.
        -- split; [lia | contradiction].
        -- destruct (fallback_or_key_source fallback key) as [-> | ->]; simpl;
             (split; [lia | contradiction]).
      * split; [lia | contradiction].
  - rewrite (caption_store_throws _ _ _ _ _ _ _ Hs). simpl.
    split; [lia|]. intros (v & [=] & _).
Qed.

(** C10 (amended).  [hasTranslation] tells whether the loaded content holds a
    defined value under the key; [caption] takes the store branch when that
    value is moreover truthy.  A store hit therefore implies [hasTranslation],
    and the two agree on every key whose stored value is truthy. *)
Theorem hasTranslation_and_store_hit {rt : Runtime} messages english stats key fallback
    params :
  let stats' := snd (caption messages english stats key fallback params) in
  (hasTranslation messages key = Return true <->
     exists v, getNestedValue messages key = Return (Some v))
  /\ (storeHits stats' = S (storeHits stats) <->
     exists v, getNestedValue messages key = Return (Some v) /\ ToBoolean v = true)
  /\ (storeHits stats' = S (storeHits stats) -> hasTranslation messages key = Return true)
  /\ (forall v, getNestedValue messages key = Return (Some v) -> ToBoolean v = true ->
      hasTranslation messages key = Return true /\ storeHits stats' = S (storeHits stats)).
Proof.
  cbv zeta.
  assert (Hhas : hasTranslation messages key = Return true <->
                 exists v, getNestedValue messages key = Return (Some v)).
  { unfold hasTranslation. destruct (getNestedValue messages key) as [[v|]|e]; split; eauto;
      try discriminate; intros [v [=]]. }
  pose proof (caption_store_hit messages english stats key fallback params) as Hhit.
  split; [exact Hhas|]. split; [exact Hhit|]. split.
  - intros H. apply Hhas. apply Hhit in H. destruct H as (v & Hv & _). eauto.
  - intros v Hv Ht. split; [apply Hhas; eauto | apply Hhit; eauto].
Qed.

(** C10, as stated, fails on a stored empty string: the key exists, and
    [caption] records no store hit for it. *)
Lemma hasTranslation_store_hit_counterexample :
  hasTranslation (VObj {[ "common" := VObj {[ "note" := VStr "" ]} ]}) "common.note"
    = Return true
  /\ caption (VObj {[ "common" := VObj {[ "note" := VStr "" ]} ]}) (VObj ∅) noStats
       "common.note" None None
     = (Data (VStr "common.note"), {| storeHits := 0; fallbackHits := 0; missingKeys := 1 |}).
Proof. split; reflexivity. Qed.

(** ** The local cache and the loader *)

(** The loader neither reads nor writes the Pinia store: it runs the same
    under any change of it. *)
Lemma loadLanguage_with_store env locale f w :
  loadLanguage env locale (with_store f w) =
  (fst (loadLanguage env locale w), with_store f (snd (loadLanguage env locale w))).
Proof.
  unfold loadLanguage. run.
Qed.

(** What the loader returns is never [null]: a cached value is truthy, a
    fetched one has passed [Object.keys]. *)
Lemma loadLanguage_not_null env locale w w' :
  loadLanguage env locale w <> (Return VNull, w').
Proof.
  unfold loadLanguage. run.
  all: intros [=]; subst; simpl in *; try congruence.
  all: match goal with H : if_truthy _ = Some _ |- _ =>
         apply if_truthy_Some in H; destruct H as [_ H]; discriminate H end.
Qed.

(** [languageDB.get] written out: it opens the database, reads the marker,
    and reads the store only under the requested locale's marker. *)
Lemma languageDB_get_eq env locale w :
  languageDB_get env locale w =
  if dbOpens env then
    if localStorageReads env then
      if String.eqb (getCurrentLanguage w) locale then
        if dbGets env then (Return (translations w !! "current"), w)
        else (Throw StorageError, w)
      else (Return None, w)
    else (Throw LocalStorageError, w)
  else (Throw StorageError, w).
Proof. unfold getCurrentLanguage. run. Qed.

(** Under another marker the store is not even read. *)
Lemma languageDB_get_other_marker env locale w :
  getCurrentLanguage w <> locale ->
  dbOpens env = true -> localStorageReads env = true ->
  languageDB_get env locale w = (Return None, w).
Proof.
  intros Hne Ho Hr. rewrite languageDB_get_eq, Ho, Hr.
  destruct (String.eqb_spec (getCurrentLanguage w) locale); [contradiction|reflexivity].
Qed.

(** C6.  [languageDB.get] hands out the stored document only under a marker
    equal to the requested locale: whenever it returns a document, the marker
    ([getCurrentLanguage]) is the requested locale and the document is the one
    stored; under any other marker it returns [undefined], whatever the store
    holds; and under the requested locale's marker it returns what is
    stored. *)
Theorem languageDB_get_checks_marker env locale w :
  (forall doc w',
     languageDB_get env locale w = (Return (Some doc), w') ->
     getCurrentLanguage w = locale /\ translations w !! "current" = Some doc /\ w' = w)
  /\ (getCurrentLanguage w <> locale ->
      dbOpens env = true -> localStorageReads env = true ->
      languageDB_get env locale w = (Return None, w))
  /\ (getCurrentLanguage w = locale ->
      dbOpens env = true -> localStorageReads env = true -> dbGets env = true ->
      languageDB_get env locale w = (Return (translations w !! "current"), w)).
Proof.
  rewrite languageDB_get_eq. repeat split.
  - destruct (dbOpens env), (localStorageReads env); try discriminate.
    destruct (String.eqb_spec (getCurrentLanguage w) locale); [assumption|discriminate].
  - destruct (dbOpens env), (localStorageReads env),
      (String.eqb (getCurrentLanguage w) locale), (dbGets env); congruence.
  - destruct (dbOpens env), (localStorageReads env),
      (String.eqb (getCurrentLanguage w) locale), (dbGets env); congruence.
  - intros Hne Ho Hr. rewrite <- languageDB_get_eq.
    apply languageDB_get_other_marker; assumption.
  - intros <- -> -> ->. rewrite String.eqb_refl. reflexivity.
Qed.

(** A French document lies in the store while the marker says Spanish: a
    request for French gets nothing, a request for Spanish gets it. *)
Lemma languageDB_get_checks_marker_example :
  languageDB_get online "fr" mismatchedWorld = (Return None, mismatchedWorld)
  /\ languageDB_get online "es" mismatchedWorld
     = (Return (Some (VObj frenchDocument)), mismatchedWorld).
Proof.
  split.
  - apply (proj1 (proj2 (languageDB_get_checks_marker online "fr" mismatchedWorld)));
      [discriminate | reflexivity | reflexivity].
  - exact (proj2 (proj2 (languageDB_get_checks_marker online "es" mismatchedWorld))
             eq_refl eq_refl eq_refl eq_refl).
Defined.

(** C3 (the code on the failing path).  [loadLanguage] calls
    [languageDB.get] before its [try]: whatever that call throws leaves
    [loadLanguage] as it is, for every locale but "en". *)
Theorem loadLanguage_propagates_cache_read_failure env locale w e w' :
  locale <> "en" ->
  languageDB_get env locale w = (Throw e, w') ->
  loadLanguage env locale w = (Throw e, w').
Proof.
  intros Hne Hget. unfold loadLanguage.
  destruct (String.eqb_spec locale "en"); [contradiction|].
  unfold mbind, M_bind. rewrite Hget. reflexivity.
Qed.

(** With IndexedDB unavailable, loading Spanish throws. *)
Lemma loadLanguage_propagates_cache_read_failure_example :
  loadLanguage withoutIndexedDB "es" freshWorld = (Throw StorageError, freshWorld).
Proof.
  apply (loadLanguage_propagates_cache_read_failure withoutIndexedDB "es" freshWorld);
    [discriminate | reflexivity].
Defined.

(** The network would serve Spanish, but with IndexedDB unavailable the
    activation ends with no content and without a single fetch. *)
Example setAndLoadLanguage_without_IndexedDB :
  messages (store (snd (setAndLoadLanguage withoutIndexedDB "es" None freshWorld))) = ∅
  /\ fetchCount (snd (setAndLoadLanguage withoutIndexedDB "es" None freshWorld)) = 0.
Proof. split; reflexivity. Qed.

(** Every other failure is absorbed: once [languageDB.get] has returned,
    [loadLanguage] returns too, and a failed fetch, a non-ok response, a
    malformed or [null] body and a failed [languageDB.set] all give [{}]. *)
Lemma loadLanguage_returns_after_cache_read env locale w cached w1 :
  languageDB_get env locale w = (Return cached, w1) ->
  exists v w', loadLanguage env locale w = (Return v, w').
Proof.
  intros Hget. unfold loadLanguage.
  destruct (String.eqb locale "en"); [eexists _, _; reflexivity|].
  unfold mbind at 1. unfold M_bind at 1. rewrite Hget.
  destruct (if_truthy cached); [eexists _, _; reflexivity|].
  unfold try_catch.
  match goal with |- context [match ?b w1 with _ => _ end] => destruct (b w1) as [[v|err] w2] end;
    eexists _, _; reflexivity.
Qed.

(** Offline and with an empty cache, loading Spanish still returns. *)
Lemma loadLanguage_returns_after_cache_read_example :
  exists v w', loadLanguage offline "es" freshWorld = (Return v, w').
Proof.
  apply (loadLanguage_returns_after_cache_read offline "es" freshWorld None freshWorld).
  reflexivity.
Defined.

(** On a cache miss, each failure of the retrieval gives the empty
    document. *)
Lemma loadLanguage_absorbs_fetch_failure env locale w :
  locale <> "en" ->
  languageDB_get env locale w = (Return None, w) ->
  (network env (endpoint env locale) = Rejected
   \/ (exists status b, network env (endpoint env locale) = Response false status b)
   \/ (exists status, network env (endpoint env locale) = Response true status Malformed)
   \/ (exists status, network env (endpoint env locale) = Response true status (Json VNull))) ->
  fst (loadLanguage env locale w) = Return (VObj ∅).
Proof.
  intros Hne Hget Hnet. unfold loadLanguage.
  destruct (String.eqb_spec locale "en"); [contradiction|].
  unfold mbind at 1. unfold M_bind at 1. rewrite Hget. simpl.
  unfold try_catch, fetch, mbind, M_bind, throw.
  destruct Hnet as [-> | [(st & b & ->) | [(st & ->) | (st & ->)]]]; reflexivity.
Qed.

(** ** The locale store *)

(** A read on a datum other than [null] does not throw. *)
Lemma getProp_member {rt : Runtime} (d : value) (k : string) :
  d <> VNull -> getProp d k = Return (member d k).
Proof. intros Hnn. unfold member. destruct d; try reflexivity. congruence. Qed.

(** An object of data reads its fields, then the members objects inherit. *)
Lemma member_VObj {rt : Runtime} (doc : gmap string value) (k : string) :
  member (VObj doc) k =
  match doc !! k with
  | Some section => Some (Data section)
  | None => inherited KObject k
  end.
Proof. unfold member. simpl. destruct (doc !! k); reflexivity. Qed.

(** [obj[k] = v], field by field. *)
Lemma lookup_assign (obj : gmap string jsvalue) (k : string) (v : jsvalue) (name : string) :
  assign obj k v !! name =
  if bool_decide (name = k) && negb (String.eqb name "__proto__") then Some v
  else obj !! name.
Proof.
  unfold assign. destruct (String.eqb_spec k "__proto__") as [->|Hk].
  - case_bool_decide as Hn; [subst name|reflexivity]. reflexivity.
  - case_bool_decide as Hn; [subst name|].
    + rewrite lookup_insert_eq. destruct (String.eqb_spec k "__proto__"); [contradiction|].
      reflexivity.
    + rewrite lookup_insert_ne by congruence. reflexivity.
Qed.

(** The filtering loop on a document that is not [null]: it cannot throw,
    leaves the world alone, and sets every listed name under which the
    document yields a truthy value, [__proto__] apart. *)
Lemma filterSections_run {rt : Runtime} (allMessages : value) sections : forall acc w,
  allMessages <> VNull ->
  exists filtered,
    filterSections allMessages sections acc w = (Return filtered, w)
    /\ forall k, filtered !! k =
         if bool_decide (k ∈ sections) && negb (String.eqb k "__proto__")
         then match if_ToBoolean (member allMessages k) with
              | Some v => Some v
              | None => acc !! k
              end
         else acc !! k.
Proof.
  induction sections as [|section rest IH]; intros acc w Hnn.
  - exists acc. split; [reflexivity|]. intros k. reflexivity.
  - assert (Hread : readProp allMessages section w
                    = (Return (member allMessages section), w)).
    { unfold readProp, lift. rewrite (getProp_member _ _ Hnn). reflexivity. }
    simpl. unfold mbind, M_bind. rewrite Hread.
    destruct (if_ToBoolean (member allMessages section)) as [v|] eqn:Hv.
    + destruct (IH (assign acc section v) w Hnn) as (filtered & Hrun & Hlook).
      exists filtered. split; [exact Hrun|].
      intros k. rewrite Hlook, lookup_assign.
      destruct (decide (k = section)) as [->|Hne].
      * rewrite Hv.
        rewrite (bool_decide_eq_true_2 (section ∈ section :: rest)) by apply list_elem_of_here.
        rewrite (bool_decide_eq_true_2 (section = section)) by reflexivity.
        destruct (bool_decide (section ∈ rest)), (negb (String.eqb section "__proto__"));
          reflexivity.
      * rewrite (bool_decide_ext (k ∈ section :: rest) (k ∈ rest))
          by (rewrite elem_of_cons; tauto).
        rewrite (bool_decide_eq_false_2 (k = section)) by exact Hne.
        reflexivity.
    + destruct (IH acc w Hnn) as (filtered & Hrun & Hlook).
      exists filtered. split; [exact Hrun|].
      intros k. rewrite Hlook.
      destruct (decide (k = section)) as [->|Hne].
      * rewrite Hv.
        rewrite (bool_decide_eq_true_2 (section ∈ section :: rest)) by apply list_elem_of_here.
        destruct (bool_decide (section ∈ rest)), (negb (String.eqb section "__proto__"));
          reflexivity.
      * rewrite (bool_decide_ext (k ∈ section :: rest) (k ∈ rest))
          by (rewrite elem_of_cons; tauto).
        reflexivity.
Qed.

(** [setAndLoadLanguage] in one step: it always returns, and the world it
    leaves is determined by what the loader did. *)
Lemma setAndLoadLanguage_run {rt : Runtime} env locale uiSection w :
  exists w',
    setAndLoadLanguage env locale uiSection w = (Return tt, w')
    /\ isLoading (store w') = false
    /\ translations w' = translations (snd (loadLanguage env locale w))
    /\ fetchCount w' = fetchCount (snd (loadLanguage env locale w))
    /\ match fst (loadLanguage env locale w) with
       | Return allMessages =>
           if localStorageWrites env
           then userLanguage w' = Some locale
                /\ currentLocale (store w') = locale
                /\ forall k, messages (store w') !! k =
                     if bool_decide (k ∈ sectionsToLoad uiSection)
                        && negb (String.eqb k "__proto__")
                     then if_ToBoolean (member allMessages k)
                     else None
           else userLanguage w' = userLanguage (snd (loadLanguage env locale w))
                /\ messages (store w') = ∅
       | Throw _ =>
           userLanguage w' = userLanguage (snd (loadLanguage env locale w))
           /\ messages (store w') = ∅
       end.
Proof.
  unfold setAndLoadLanguage, set_isLoading.
  unfold mbind, M_bind, modify, try_finally, try_catch.
  rewrite loadLanguage_with_store.
  destruct (loadLanguage env locale w) as [[allMessages|e] w1] eqn:Hload; simpl.
  - assert (Hnn : allMessages <> VNull).
    { intros ->. exact (loadLanguage_not_null _ _ _ _ Hload). }
    match goal with |- context [filterSections ?a ?s ?acc ?w0] =>
      destruct (filterSections_run a s acc w0 Hnn) as (filtered & -> & Hlook) end.
    unfold localStorage_setItem, set_messages, with_messages, set_currentLocale,
      set_documentLang, modify, throw.
    destruct (localStorageWrites env); simpl.
    + eexists. split; [reflexivity|]. simpl. repeat split; try reflexivity.
      intros k. rewrite Hlook, lookup_empty.
      destruct (bool_decide (k ∈ sectionsToLoad uiSection) && _); [|reflexivity].
      destruct (if_ToBoolean (member allMessages k)); reflexivity.
    + eexists. split; [reflexivity|]. simpl. repeat split; reflexivity.
  - unfold set_messages, with_messages, modify. eexists. split; [reflexivity|]. simpl.
    repeat split; reflexivity.
Qed.

(** The list the code builds names the sections the specification retains. *)
Lemma sectionsToLoad_retained uiSection k :
  k ∈ sectionsToLoad uiSection <-> k ∈ retained uiSection.
Proof.
  unfold sectionsToLoad, retained, defaultSections.
  destruct uiSection as [s|]; [|set_solver].
  destruct (String.eqb s ""); simpl; [set_solver|].
  case_bool_decide; simpl; set_solver.
Qed.

(** An activation whose load gives the empty document stores no section of
    any document: what it stores is inherited, under a retained name. *)
Lemma setAndLoadLanguage_run_empty {rt : Runtime} env locale uiSection w :
  fst (loadLanguage env locale w) = Return (VObj ∅) ->
  let w' := snd (setAndLoadLanguage env locale uiSection w) in
  (forall name v, messages (store w') !! name = Some v ->
     name ∈ retained uiSection /\ inherited KObject name = Some v)
  /\ ((forall name, name ∈ retained uiSection -> inherited KObject name = None) ->
      messages (store w') = ∅).
Proof.
  intros Hempty. cbv zeta.
  destruct (setAndLoadLanguage_run env locale uiSection w)
    as (w' & Hrun & _ & _ & _ & Hcase).
  rewrite Hrun. simpl. rewrite Hempty in Hcase. destruct (localStorageWrites env).
  - destruct Hcase as (_ & _ & Hlook).
    assert (Hin : forall name v, messages (store w') !! name = Some v ->
              name ∈ retained uiSection /\ inherited KObject name = Some v).
    { intros name v. rewrite Hlook, member_VObj, lookup_empty.
      case_bool_decide as Hname; simpl; [|discriminate].
      destruct (negb _); [|discriminate].
      intros Hv. apply if_ToBoolean_Some in Hv.
      split; [apply sectionsToLoad_retained, Hname | apply Hv]. }
    split; [exact Hin|].
    intros Hplain. apply map_eq. intros name. rewrite lookup_empty.
    destruct (messages (store w') !! name) as [v|] eqn:Hv; [|reflexivity].
    destruct (Hin name v Hv) as [Hname Hinh].
    rewrite (Hplain name Hname) in Hinh. discriminate.
  - destruct Hcase as [_ ->]. split; [|reflexivity].
    intros name v. rewrite lookup_empty. discriminate.
Qed.

(** C9 (amended).  [setAndLoadLanguage] always returns, with [isLoading]
    false.  When the load threw, [messages] is [{}] afterwards.  When the load
    gave the empty document, [messages] holds no section of any document:
    whatever it holds is a member that objects inherit, stored under a
    retained name, and it is [{}] when none of the retained names is the name
    of such a member. *)
Theorem setAndLoadLanguage_cannot_fail {rt : Runtime} env locale uiSection w :
  exists w',
    setAndLoadLanguage env locale uiSection w = (Return tt, w')
    /\ isLoading (store w') = false
    /\ ((exists e, fst (loadLanguage env locale w) = Throw e) -> messages (store w') = ∅)
    /\ (fst (loadLanguage env locale w) = Return (VObj ∅) ->
        (forall name v, messages (store w') !! name = Some v ->
           name ∈ retained uiSection /\ inherited KObject name = Some v)
        /\ ((forall name, name ∈ retained uiSection -> inherited KObject name = None) ->
            messages (store w') = ∅)).
Proof.
  destruct (setAndLoadLanguage_run env locale uiSection w)
    as (w' & Hrun & Hbusy & _ & _ & Hcase).
  exists w'. split; [exact Hrun|]. split; [exact Hbusy|]. split.
  - intros [e He]. rewrite He in Hcase. apply Hcase.
  - intros Hempty.
    pose proof (setAndLoadLanguage_run_empty env locale uiSection w Hempty) as H.
    cbv zeta in H. rewrite Hrun in H. exact H.
Qed.

(** Offline, with nothing cached, activating Spanish for the dashboard
    returns with no content and no busy flag. *)
Lemma setAndLoadLanguage_cannot_fail_example :
  exists w',
    setAndLoadLanguage offline "es" (Some "dashboard") freshWorld = (Return tt, w')
    /\ isLoading (store w') = false
    /\ messages (store w') = ∅.
Proof.
  destruct (setAndLoadLanguage_cannot_fail offline "es" (Some "dashboard") freshWorld)
    as (w' & Hrun & Hbusy & _ & Hempty).
  exists w'. split; [exact Hrun|]. split; [exact Hbusy|].
  apply Hempty; [reflexivity|].
  intros name Hname. unfold retained in Hname. simpl in Hname.
  assert (name = "common" \/ name = "error" \/ name = "footer" \/ name = "dashboard")
    as [-> | [-> | [-> | ->]]] by set_solver; reflexivity.
Defined.

(** C9, as stated, fails when the requested section bears the name of a
    member that every object has: offline, the load gives the empty document,
    and the read [allMessages['toString']] still yields a function, which
    [messages] holds afterwards. *)
Lemma setAndLoadLanguage_cannot_fail_counterexample :
  fst (loadLanguage offline "es" freshWorld) = Return (VObj ∅)
  /\ fst (setAndLoadLanguage offline "es" (Some "toString") freshWorld) = Return tt
  /\ messages (store (snd (setAndLoadLanguage offline "es" (Some "toString") freshWorld)))
     = {[ "toString" := Builtin "Object.prototype.toString" ]}.
Proof. repeat split; vm_compute; reflexivity. Qed.

(** C7 (amended).  When the load gives a document whose sections are all
    truthy (as every object is), and no retained name is [__proto__] or is
    missing from the document while objects inherit a member of that name,
    [setAndLoadLanguage] returns normally and leaves in [messages] exactly the
    sections of the document named in [retained uiSection]: common, error,
    footer and the requested section (the code tests [uiSection &&], so a
    request for the empty name is no request).  Names of that set the
    document lacks are left out, and every other section of the document is
    dropped. *)
Theorem setAndLoadLanguage_filters_sections {rt : Runtime} env locale uiSection w doc w1 :
  loadLanguage env locale w = (Return (VObj doc), w1) ->
  map_Forall (fun _ section => truthy section = true) doc ->
  localStorageWrites env = true ->
  (forall name, name ∈ retained uiSection ->
     name <> "__proto__" /\ (doc !! name = None -> inherited KObject name = None)) ->
  fst (setAndLoadLanguage env locale uiSection w) = Return tt
  /\ messages (store (snd (setAndLoadLanguage env locale uiSection w)))
     = Data <$> filter (fun entry => entry.1 ∈ retained uiSection) doc.
Proof.
  intros Hload Hdoc Hls Hplain.
  destruct (setAndLoadLanguage_run env locale uiSection w)
    as (w' & Hrun & _ & _ & _ & Hcase).
  rewrite Hrun, Hload, Hls in *. simpl in *.
  destruct Hcase as (_ & _ & Hlook).
  split; [reflexivity|].
  apply map_eq. intros k. rewrite Hlook, member_VObj, lookup_fmap.
  case_bool_decide as Hk; rewrite sectionsToLoad_retained in Hk; simpl.
  - destruct (Hplain k Hk) as [Hproto Hinh].
    destruct (String.eqb_spec k "__proto__"); [contradiction|]. simpl.
    destruct (doc !! k) as [section|] eqn:Hsection.
    + rewrite (map_lookup_filter_Some_2 _ _ k section Hsection Hk). simpl.
      rewrite (Hdoc k section Hsection). reflexivity.
    + rewrite (Hinh eq_refl). simpl.
      rewrite map_lookup_filter_None_2; [reflexivity|]. left. exact Hsection.
  - rewrite map_lookup_filter_None_2; [reflexivity|].
    right. intros section _. exact Hk.
Qed.

(** The specification's example: of the sections common, error, footer,
    dashboard and settings, activating Spanish with "dashboard" keeps the
    first four. *)
Lemma setAndLoadLanguage_filters_sections_example :
  messages (store (snd (setAndLoadLanguage online "es" (Some "dashboard") freshWorld)))
    = Data <$> filter (fun entry => entry.1 ∈ retained (Some "dashboard")) fullDocument
  /\ dom (messages (store (snd (setAndLoadLanguage online "es" (Some "dashboard") freshWorld))))
    = {[ "common"; "error"; "footer"; "dashboard" ]}.
Proof.
  assert (Hdoc : map_Forall (fun _ section => truthy section = true) fullDocument).
  { apply map_Forall_to_list. vm_compute. repeat constructor. }
  assert (Hplain : forall name, name ∈ retained (Some "dashboard") ->
            name <> "__proto__"
            /\ (fullDocument !! name = None -> inherited KObject name = None)).
  { intros name Hname. unfold retained in Hname. simpl in Hname.
    assert (name = "common" \/ name = "error" \/ name = "footer" \/ name = "dashboard")
      as [-> | [-> | [-> | ->]]] by set_solver; split; (discriminate || reflexivity). }
  pose proof (setAndLoadLanguage_filters_sections online "es" (Some "dashboard")
                freshWorld fullDocument _ eq_refl Hdoc eq_refl Hplain) as [_ H].
  split; [exact H|]. vm_compute. reflexivity.
Defined.

(** C7, as stated, fails when the requested section bears the name of a
    member that every object has.  The document has no section "toString";
    yet the read [allMessages['toString']] yields a function, and [messages]
    holds four entries where the document's retained sections are three. *)
Lemma setAndLoadLanguage_filters_sections_counterexample :
  fullDocument !! "toString" = None
  /\ dom (filter (fun entry => entry.1 ∈ retained (Some "toString")) fullDocument)
     = {[ "common"; "error"; "footer" ]}
  /\ messages (store (snd (setAndLoadLanguage online "es" (Some "toString") freshWorld)))
       !! "toString" = Some (Builtin "Object.prototype.toString")
  /\ dom (messages (store (snd (setAndLoadLanguage online "es" (Some "toString") freshWorld))))
     = {[ "common"; "error"; "footer"; "toString" ]}.
Proof. repeat split; vm_compute; reflexivity. Qed.

(** The store never changes under the loader's hands. *)
Lemma loadLanguage_same_store env locale w v w1 :
  loadLanguage env locale w = (Return v, w1) -> store w1 = store w.
Proof.
  intros Hload.
  pose proof (loadLanguage_with_store env locale (fun _ => store w) w) as H.
  replace (with_store (fun _ => store w) w) with w in H by (destruct w; reflexivity).
  rewrite Hload in H. simpl in H. injection H as H. rewrite H at 1. reflexivity.
Qed.

(** C8.  [loadAdditionalSection], under an active locale other than "en" and
    for a section the loaded document holds, adds that section to [messages]
    and leaves every other section as it was; the [messages] that
    [setAndLoadLanguage] leaves do not depend on the ones it found. *)
Theorem loadAdditionalSection_merges {rt : Runtime} env sectionName w doc w1 section :
  currentLocale (store w) <> "en" ->
  loadLanguage env (currentLocale (store w)) w = (Return doc, w1) ->
  getProp doc sectionName = Return (Some section) ->
  ToBoolean section = true ->
  let after := messages (store (snd (loadAdditionalSection env sectionName w))) in
  after = <[sectionName := section]> (messages (store w))
  /\ after !! sectionName = Some section
  /\ (forall other, other <> sectionName -> after !! other = messages (store w) !! other)
  /\ (forall env' locale uiSection previous,
        messages (store (snd (setAndLoadLanguage env' locale uiSection
                                (with_messages previous w))))
        = messages (store (snd (setAndLoadLanguage env' locale uiSection w)))).
Proof.
  intros Hen Hload Hsec Htruthy. cbv zeta.
  assert (Hafter : messages (store (snd (loadAdditionalSection env sectionName w)))
                   = <[sectionName := section]> (messages (store w))).
  { unfold loadAdditionalSection, set_isLoading.
    unfold mbind, M_bind, gets, modify, try_finally, try_catch. simpl.
    destruct (String.eqb_spec (currentLocale (store w)) "en"); [contradiction|].
    rewrite loadLanguage_with_store, Hload. simpl.
    unfold readProp, lift. rewrite Hsec. simpl. rewrite Htruthy. simpl.
    rewrite (loadLanguage_same_store _ _ _ _ _ Hload). reflexivity. }
  split; [exact Hafter|]. split; [rewrite Hafter; apply lookup_insert_eq|].
  split; [intros other Hne; rewrite Hafter; apply lookup_insert_ne; congruence|].
  intros env' locale uiSection previous.
  destruct (setAndLoadLanguage_run env' locale uiSection (with_messages previous w))
    as (wa & Ha & _ & _ & _ & Hca).
  destruct (setAndLoadLanguage_run env' locale uiSection w)
    as (wb & Hb & _ & _ & _ & Hcb).
  rewrite Ha, Hb. simpl. unfold with_messages in Hca.
  rewrite loadLanguage_with_store in Hca. simpl in Hca.
  destruct (fst (loadLanguage env' locale w)) as [allMessages|e].
  - destruct (localStorageWrites env').
    + destruct Hca as (_ & _ & Hla), Hcb as (_ & _ & Hlb).
      apply map_eq. intros k. rewrite Hla, Hlb. reflexivity.
    + destruct Hca as [_ ->], Hcb as [_ ->]. reflexivity.
  - destruct Hca as [_ ->], Hcb as [_ ->]. reflexivity.
Qed.

(** After Spanish was activated with the baseline only, loading "dashboard"
    adds it and keeps the three sections that were there. *)
Lemma loadAdditionalSection_merges_example :
  messages (store (snd (loadAdditionalSection online "dashboard" spanishWorld)))
    = <["dashboard" := Data (VObj {[ "welcome" := VStr "Bienvenido, {name}!" ]})]>
        (messages (store spanishWorld))
  /\ dom (messages (store spanishWorld)) = {[ "common"; "error"; "footer" ]}
  /\ dom (messages (store (snd (loadAdditionalSection online "dashboard" spanishWorld))))
     = {[ "common"; "error"; "footer"; "dashboard" ]}.
Proof.
  split.
  - refine (proj1 (loadAdditionalSection_merges online "dashboard" spanishWorld
                     (VObj fullDocument) spanishWorld _ _ eq_refl eq_refl eq_refl)).
    discriminate.
  - split; vm_compute; reflexivity.
Defined.

(** ** Two activations in a row *)

(** [storage_works], flag by flag. *)
Lemma storage_works_flags env :
  storage_works env = true ->
  dbOpens env = true /\ dbGets env = true /\ dbPuts env = true /\ dbClears env = true
  /\ localStorageReads env = true /\ localStorageWrites env = true.
Proof.
  unfold storage_works. rewrite !andb_true_iff. tauto.
Qed.

(** With working stores and a successful answer of the origin, the loader
    returns a truthy document that is the one in the cache afterwards: the
    cached one with no fetch, or the fetched one after a single fetch. *)
Lemma loadLanguage_serves env locale w status doc :
  locale <> "en" ->
  storage_works env = true ->
  network env (endpoint env locale) = Response true status (Json doc) ->
  truthy doc = true ->
  exists v w1,
    loadLanguage env locale w = (Return v, w1)
    /\ translations w1 !! "current" = Some v
    /\ truthy v = true
    /\ userLanguage w1 = userLanguage w
    /\ (w1 = w \/ (fetchCount w1 = S (fetchCount w) /\ v = doc)).
Proof.
  intros Hne Hworks Hnet Hdoc.
  destruct (storage_works_flags _ Hworks) as (Ho & Hg & Hp & Hc & Hr & Hw).
  unfold loadLanguage.
  destruct (String.eqb_spec locale "en"); [contradiction|].
  unfold mbind at 1. unfold M_bind at 1.
  rewrite languageDB_get_eq, Ho, Hr, Hg.
  assert (Hfetch : exists w1,
    try_catch
      (response ← fetch env (endpoint env locale);
       match response with
       | Rejected => throw NetworkError
       | Response ok status b =>
           if negb ok then throw (HttpError status)
           else match b with
                | Malformed => throw SyntaxError
                | Json translations =>
                    Object_keys_check translations;;
                    languageDB_set env locale translations;;
                    mret translations
                end
       end)
      (fun _ => mret (VObj ∅)) w = (Return doc, w1)
    /\ translations w1 !! "current" = Some doc
    /\ userLanguage w1 = userLanguage w
    /\ fetchCount w1 = S (fetchCount w)).
  { unfold try_catch, fetch, mbind, M_bind. rewrite Hnet. simpl.
    assert (Hkeys : forall w0, Object_keys_check doc w0 = (Return tt, w0)).
    { intros w0. destruct doc; try reflexivity. discriminate. }
    rewrite Hkeys.
    unfold languageDB_set, dbPromise, localStorage_getItem, db_clear, db_put.
    rewrite Ho, Hr, Hc, Hp. unfold mbind, mret, M_bind, M_ret, gets, modify. simpl.
    destruct (negb _ && negb _); simpl;
      (eexists; split; [reflexivity|]; simpl;
       split; [apply lookup_insert_eq|split; reflexivity]). }
  destruct Hfetch as (w1 & Hrun & Hcache & Huser & Hcount).
  destruct (String.eqb (getCurrentLanguage w) locale).
  - destruct (if_truthy (translations w !! "current")) as [cached|] eqn:Hcached.
    + apply if_truthy_Some in Hcached. destruct Hcached as [Hc1 Hc2].
      exists cached, w. unfold mret, M_ret. auto 6.
    + exists doc, w1. auto 8.
  - simpl. exists doc, w1. auto 8.
Qed.

(** Under the requested locale's marker and with a truthy document in the
    cache, the loader changes nothing: it returns or throws without a fetch. *)
Lemma loadLanguage_cached_unchanged env locale w cached :
  locale <> "en" ->
  getCurrentLanguage w = locale ->
  translations w !! "current" = Some cached ->
  truthy cached = true ->
  snd (loadLanguage env locale w) = w
  /\ (dbOpens env = true -> localStorageReads env = true -> dbGets env = true ->
      loadLanguage env locale w = (Return cached, w)).
Proof.
  intros Hne Hmark Hcur Htruthy. unfold loadLanguage.
  destruct (String.eqb_spec locale "en"); [contradiction|].
  unfold mbind, M_bind. rewrite languageDB_get_eq, Hmark, String.eqb_refl, Hcur.
  destruct (dbOpens env), (localStorageReads env), (dbGets env); simpl;
    rewrite ?Htruthy; split; try reflexivity; intros; discriminate.
Qed.

(** A stored locale that is not empty is the marker. *)
Lemma or_en_Some locale : locale <> "" -> or_en (Some locale) = locale.
Proof.
  intros H. unfold or_en. destruct (String.eqb_spec locale ""); [contradiction|reflexivity].
Qed.

(** C4.  Once a locale (not "en", not empty) has been activated with working
    stores and an origin that serves its document, the marker is that locale
    and the cache holds a truthy document, the fetched one whenever the first
    activation fetched; a second activation of the locale issues no fetch,
    whatever the stores do then, and the loader serves the cached document. *)
Theorem second_activation_fetches_nothing {rt : Runtime} env1 locale section1 w status doc :
  locale <> "en" -> locale <> "" ->
  storage_works env1 = true ->
  network env1 (endpoint env1 locale) = Response true status (Json doc) ->
  truthy doc = true ->
  let w1 := snd (setAndLoadLanguage env1 locale section1 w) in
  getCurrentLanguage w1 = locale
  /\ (exists cached,
        translations w1 !! "current" = Some cached
        /\ truthy cached = true
        /\ (fetchCount w1 <> fetchCount w -> cached = doc)
        /\ forall env2,
             dbOpens env2 = true -> localStorageReads env2 = true -> dbGets env2 = true ->
             loadLanguage env2 locale w1 = (Return cached, w1))
  /\ forall env2 section2,
       fetchCount (snd (setAndLoadLanguage env2 locale section2 w1)) = fetchCount w1.
Proof.
  intros Hen Hempty Hworks Hnet Hdoc. cbv zeta.
  destruct (loadLanguage_serves env1 locale w status doc Hen Hworks Hnet Hdoc)
    as (v & wl & Hload & Hcache & Hv & Huser & Hcount).
  destruct (setAndLoadLanguage_run env1 locale section1 w)
    as (w1 & Hrun & _ & Htr & Hfc & Hcase).
  destruct (storage_works_flags _ Hworks) as (_ & _ & _ & _ & _ & Hw).
  rewrite Hrun, Hload, Hw in *. simpl in *.
  destruct Hcase as (Hmarker & _ & _).
  assert (Hmark : getCurrentLanguage w1 = locale).
  { unfold getCurrentLanguage. rewrite Hmarker. apply or_en_Some, Hempty. }
  assert (Hcur : translations w1 !! "current" = Some v) by (rewrite Htr; exact Hcache).
  split; [exact Hmark|]. split.
  - exists v. split; [exact Hcur|]. split; [exact Hv|]. split.
    + intros Hdiff. destruct Hcount as [-> | [_ ->]]; [|reflexivity].
      rewrite Hfc in Hdiff. contradiction.
    + intros env2. apply (loadLanguage_cached_unchanged env2 locale w1 v Hen Hmark Hcur Hv).
  - intros env2 section2.
    destruct (setAndLoadLanguage_run env2 locale section2 w1)
      as (w2 & Hrun2 & _ & _ & Hfc2 & _).
    rewrite Hrun2. simpl. rewrite Hfc2.
    rewrite (proj1 (loadLanguage_cached_unchanged env2 locale w1 v Hen Hmark Hcur Hv)).
    reflexivity.
Qed.

(** A first visit activates Spanish with one fetch; a second activation, even
    offline, leaves the count of fetches at one. *)
Lemma second_activation_fetches_nothing_example :
  fetchCount spanishWorld = 1
  /\ fetchCount (snd (setAndLoadLanguage offline "es" (Some "dashboard") spanishWorld)) = 1
  /\ translations spanishWorld !! "current" = Some (VObj fullDocument).
Proof.
  pose proof (second_activation_fetches_nothing online "es" None freshWorld 200
                (VObj fullDocument)) as H.
  destruct H as (_ & _ & Hsecond); [discriminate | discriminate | reflexivity..|].
  split; [reflexivity|]. split; [|reflexivity].
  transitivity (fetchCount spanishWorld);
    [exact (Hsecond offline (Some "dashboard")) | reflexivity].
Defined.

(** C5.  After a locale is activated with working stores, activating another
    locale (not "en") whose document the origin serves leaves in the store
    that document alone, under the key "current"; a later [languageDB.get] for
    the first locale (not "en") returns [undefined]. *)
Theorem switching_locale_keeps_only_new_document {rt : Runtime}
    env1 env2 locale1 locale2 section1 section2 w status doc2 :
  locale1 <> locale2 -> locale1 <> "en" -> locale2 <> "en" ->
  storage_works env1 = true ->
  storage_works env2 = true ->
  network env2 (endpoint env2 locale2) = Response true status (Json doc2) ->
  truthy doc2 = true ->
  let w1 := snd (setAndLoadLanguage env1 locale1 section1 w) in
  let w2 := snd (setAndLoadLanguage env2 locale2 section2 w1) in
  translations w2 = {[ "current" := doc2 ]}
  /\ fetchCount w2 = S (fetchCount w1)
  /\ forall env3,
       dbOpens env3 = true -> localStorageReads env3 = true ->
       languageDB_get env3 locale1 w2 = (Return None, w2).
Proof.
  intros Hdiff Hen1 Hen2 Hworks1 Hworks2 Hnet Hdoc. cbv zeta.
  destruct (storage_works_flags _ Hworks1) as (Ho1 & Hg1 & Hp1 & Hc1 & Hr1 & Hw1).
  destruct (storage_works_flags _ Hworks2) as (Ho2 & Hg2 & Hp2 & Hc2 & Hr2 & Hw2).
  (* the first activation ends under the marker of locale1 *)
  destruct (setAndLoadLanguage_run env1 locale1 section1 w)
    as (w1 & Hrun1 & _ & _ & _ & Hcase1).
  assert (Hmarker1 : userLanguage w1 = Some locale1).
  { destruct (loadLanguage env1 locale1 w) as [[v|e] wl] eqn:Hload; simpl in Hcase1.
    - rewrite Hw1 in Hcase1. apply Hcase1.
    - exfalso.
      assert (Hget : exists cached,
                languageDB_get env1 locale1 w = (Return cached, w)).
      { rewrite languageDB_get_eq, Ho1, Hr1, Hg1.
        destruct (String.eqb _ _); eexists; reflexivity. }
      destruct Hget as [cached Hget].
      destruct (loadLanguage_returns_after_cache_read _ _ _ _ _ Hget) as (v & w' & Hret).
      congruence. }
  rewrite Hrun1. simpl.
  assert (Hmark1 : getCurrentLanguage w1 <> locale2).
  { unfold getCurrentLanguage. rewrite Hmarker1. unfold or_en.
    destruct (String.eqb locale1 ""); congruence. }
  assert (Hmark1' : getCurrentLanguage w1 <> "").
  { unfold getCurrentLanguage, or_en. destruct (userLanguage w1) as [l|]; [|discriminate].
    destruct (String.eqb_spec l ""); [discriminate|assumption]. }
  (* the second activation misses the cache, fetches, clears and stores *)
  assert (Hload2 : exists wl,
    loadLanguage env2 locale2 w1 = (Return doc2, wl)
    /\ translations wl = {[ "current" := doc2 ]}
    /\ fetchCount wl = S (fetchCount w1)).
  { unfold loadLanguage.
    destruct (String.eqb_spec locale2 "en"); [contradiction|].
    unfold mbind at 1. unfold M_bind at 1.
    rewrite languageDB_get_eq, Ho2, Hr2.
    destruct (String.eqb_spec (getCurrentLanguage w1) locale2); [contradiction|].
    simpl. unfold try_catch, fetch, mbind, M_bind. rewrite Hnet. simpl.
    assert (Hkeys : forall w0, Object_keys_check doc2 w0 = (Return tt, w0)).
    { intros w0. destruct doc2; try reflexivity. discriminate. }
    rewrite Hkeys.
    unfold languageDB_set, dbPromise, localStorage_getItem, db_clear, db_put.
    rewrite Ho2, Hr2, Hc2, Hp2. unfold mbind, mret, M_bind, M_ret, gets, modify. simpl.
    fold (getCurrentLanguage w1).
    destruct (String.eqb_spec (getCurrentLanguage w1) ""); [contradiction|].
    destruct (String.eqb_spec (getCurrentLanguage w1) locale2); [contradiction|].
    simpl. eexists. split; [reflexivity|]. simpl. split; reflexivity. }
  destruct Hload2 as (wl & Hload2 & Htr & Hfc).
  destruct (setAndLoadLanguage_run env2 locale2 section2 w1)
    as (w2 & Hrun2 & _ & Htr2 & Hfc2 & Hcase2).
  rewrite Hrun2, Hload2, Hw2 in *. simpl in *.
  destruct Hcase2 as (Hmarker2 & _ & _).
  split; [congruence|]. split; [congruence|].
  intros env3 Ho3 Hr3.
  apply languageDB_get_other_marker; auto.
  unfold getCurrentLanguage. rewrite Hmarker2. unfold or_en.
  destruct (String.eqb locale2 ""); congruence.
Qed.

(** Spanish, then French: the store holds the French document alone, and a
    read for Spanish finds nothing. *)
Lemma switching_locale_keeps_only_new_document_example :
  translations (snd (setAndLoadLanguage online "fr" None spanishWorld))
    = {[ "current" := VObj frenchDocument ]}
  /\ languageDB_get online "es" (snd (setAndLoadLanguage online "fr" None spanishWorld))
    = (Return None, snd (setAndLoadLanguage online "fr" None spanishWorld)).
Proof.
  pose proof (switching_locale_keeps_only_new_document online online "es" "fr" None None
                freshWorld 200 (VObj frenchDocument)) as H.
  destruct H as (Hstore & _ & Hget);
    [discriminate | discriminate | discriminate | reflexivity..|].
  split; [exact Hstore|]. apply Hget; reflexivity.
Defined.

(** ** Further properties of the specification *)

(** The default locale is never loaded: [loadLanguage("en")] is [{}], with no
    read of the cache and no fetch. *)
Lemma loadLanguage_default_locale env w :
  loadLanguage env "en" w = (Return (VObj ∅), w).
Proof. reflexivity. Qed.

(** [loadAdditionalSection] under the locale "en" does nothing at all. *)
Lemma loadAdditionalSection_default_locale {rt : Runtime} env sectionName w :
  currentLocale (store w) = "en" ->
  loadAdditionalSection env sectionName w = (Return tt, w).
Proof.
  intros Hen. unfold loadAdditionalSection, mbind, M_bind, gets. rewrite Hen.
  reflexivity.
Qed.

(** At application start the locale is "en": asking for a section changes
    nothing, offline or not. *)
Lemma loadAdditionalSection_default_locale_example :
  loadAdditionalSection offline "dashboard" freshWorld = (Return tt, freshWorld).
Proof.
  apply (loadAdditionalSection_default_locale offline "dashboard" freshWorld).
  reflexivity.
Defined.

(** ** The loader, the cache and the marker *)

(** The loader never writes the preference. *)
Lemma loadLanguage_userLanguage env locale w :
  userLanguage (snd (loadLanguage env locale w)) = userLanguage w.
Proof. unfold loadLanguage. run. Qed.

(** The loader never touches the Pinia store nor the document's language. *)
Lemma loadLanguage_store env locale w :
  store (snd (loadLanguage env locale w)) = store w
  /\ documentLang (snd (loadLanguage env locale w)) = documentLang w.
Proof. unfold loadLanguage. run; split; reflexivity. Qed.

(** ** The store beyond the two claims on it *)

(** [split] never gives the empty list: a key has a first segment. *)
Lemma split_cons sep s : exists first rest, split sep s = first :: rest.
Proof.
  induction s as [|c s (first & rest & IH)]; simpl; [eauto|].
  destruct (Ascii.eqb c sep); [eauto|]. rewrite IH. eauto.
Qed.

(** [loadAdditionalSection] in one step, under a locale other than "en": it
    returns, and the world it leaves is the one the loader left, with the busy
    flag down and at most the requested section set. *)
Lemma loadAdditionalSection_run {rt : Runtime} env sectionName w :
  currentLocale (store w) <> "en" ->
  loadAdditionalSection env sectionName w =
  (Return tt,
   with_store
     (fun st =>
        {| currentLocale := currentLocale st;
           messages :=
             match fst (loadLanguage env (currentLocale (store w)) w) with
             | Return doc =>
                 match if_ToBoolean (member doc sectionName) with
                 | Some section => <[sectionName := section]> (messages (store w))
                 | None => messages (store w)
                 end
             | Throw _ => messages (store w)
             end;
           supportedLocales := supportedLocales st;
           isLoading := false |})
     (snd (loadLanguage env (currentLocale (store w)) w))).
Proof.
  intros Hen. unfold loadAdditionalSection, set_isLoading.
  unfold mbind, M_bind, gets, modify, try_finally, try_catch. simpl.
  destruct (String.eqb_spec (currentLocale (store w)) "en"); [contradiction|].
  rewrite loadLanguage_with_store.
  pose proof (loadLanguage_store env (currentLocale (store w)) w) as [Hstore _].
  destruct (loadLanguage env (currentLocale (store w)) w) as [[doc|e] w1] eqn:Hload;
    simpl in *.
  - assert (Hnn : doc <> VNull).
    { intros ->. exact (loadLanguage_not_null _ _ _ _ Hload). }
    unfold readProp, lift. rewrite (getProp_member _ _ Hnn). simpl.
    destruct (if_ToBoolean (member doc sectionName));
      unfold set_messages, with_messages, modify, with_store; simpl;
      rewrite ?Hstore; reflexivity.
  - unfold with_store; simpl. rewrite Hstore. reflexivity.
Qed.

(** Whatever happens, [loadAdditionalSection] returns; it keeps the active
    locale, the persisted preference and every section but the requested one,
    and the requested one changes only to the truthy value that the document
    just loaded yields under its name.  A failed load leaves [messages] as
    they were.  [loadSection], the provider's wrapper, does the same. *)
Theorem loadAdditionalSection_keeps_content {rt : Runtime} env sectionName w :
  exists w',
    loadAdditionalSection env sectionName w = (Return tt, w')
    /\ loadSection env sectionName w = (Return tt, w')
    /\ currentLocale (store w') = currentLocale (store w)
    /\ userLanguage w' = userLanguage w
    /\ (forall other, other <> sectionName ->
          messages (store w') !! other = messages (store w) !! other)
    /\ (messages (store w') !! sectionName = messages (store w) !! sectionName
        \/ exists doc section,
             currentLocale (store w) <> "en"
             /\ fst (loadLanguage env (currentLocale (store w)) w) = Return doc
             /\ getProp doc sectionName = Return (Some section)
             /\ ToBoolean section = true
             /\ messages (store w') !! sectionName = Some section)
    /\ ((exists e, fst (loadLanguage env (currentLocale (store w)) w) = Throw e) ->
        messages (store w') = messages (store w)).
Proof.
  destruct (String.eqb_spec (currentLocale (store w)) "en") as [Hen|Hen].
  - exists w.
    assert (Hrun : loadAdditionalSection env sectionName w = (Return tt, w)).
    { unfold loadAdditionalSection, mbind, M_bind, gets. rewrite Hen. reflexivity. }
    unfold loadSection, try_catch. rewrite Hrun. repeat split; auto.
  - pose proof (loadAdditionalSection_run env sectionName w Hen) as Hrun.
    pose proof (loadLanguage_store env (currentLocale (store w)) w) as [Hstore _].
    pose proof (loadLanguage_userLanguage env (currentLocale (store w)) w) as Huser.
    eexists. split; [exact Hrun|].
    unfold loadSection, try_catch. rewrite Hrun. split; [reflexivity|].
    simpl. rewrite Hstore, Huser. split; [reflexivity|]. split; [reflexivity|].
    destruct (loadLanguage env (currentLocale (store w)) w) as [[doc|e] w1] eqn:Hload;
      simpl.
    + assert (Hnn : doc <> VNull).
      { intros ->. exact (loadLanguage_not_null _ _ _ _ Hload). }
      destruct (if_ToBoolean (member doc sectionName)) as [section|] eqn:Hsec.
      * apply if_ToBoolean_Some in Hsec. destruct Hsec as [Hsec Htruthy].
        split; [intros other Hne; apply lookup_insert_ne; congruence|].
        split; [|intros [e [=]]].
        right. exists doc, section. split; [exact Hen|]. split; [reflexivity|].
        split; [rewrite (getProp_member _ _ Hnn), Hsec; reflexivity|].
        split; [exact Htruthy|apply lookup_insert_eq].
      * split; [reflexivity|]. split; [left; reflexivity|]. reflexivity.
    + split; [reflexivity|]. split; [left; reflexivity|]. reflexivity.
Qed.

(** Spanish is active and the dashboard is asked for: online or from the
    cache it is added; once the cache has been cleared and the network is
    gone, the three loaded sections stay as they were. *)
Lemma loadAdditionalSection_keeps_content_example :
  messages (store (snd (loadAdditionalSection offline "dashboard"
                          (snd (clearLanguageCache online spanishWorld)))))
  = messages (store spanishWorld)
  /\ currentLocale (store (snd (loadAdditionalSection offline "dashboard" spanishWorld)))
     = "es".
Proof.
  destruct (loadAdditionalSection_keeps_content offline "dashboard" spanishWorld)
    as (w' & Hrun & _ & Hlocale & _).
  split; [vm_compute; reflexivity|].
  rewrite Hrun. simpl. rewrite Hlocale. reflexivity.
Defined.

(** Activating "en" uses neither the cache nor the network, in any
    environment, and loads no section of any document: [messages] holds at
    most members that objects inherit, and is [{}] when no retained name is
    the name of one. *)
Theorem setAndLoadLanguage_default_locale {rt : Runtime} env uiSection w :
  exists w',
    setAndLoadLanguage env "en" uiSection w = (Return tt, w')
    /\ translations w' = translations w
    /\ fetchCount w' = fetchCount w
    /\ isLoading (store w') = false
    /\ (forall name v, messages (store w') !! name = Some v ->
          name ∈ retained uiSection /\ inherited KObject name = Some v)
    /\ ((forall name, name ∈ retained uiSection -> inherited KObject name = None) ->
        messages (store w') = ∅).
Proof.
  destruct (setAndLoadLanguage_run env "en" uiSection w)
    as (w' & Hrun & Hbusy & Htr & Hfc & _).
  pose proof (setAndLoadLanguage_run_empty env "en" uiSection w eq_refl) as Hempty.
  cbv zeta in Hempty. rewrite Hrun in Hempty. simpl in Hempty.
  exists w'. change (loadLanguage env "en" w) with (Return (VObj ∅), w) in *.
  simpl in *. destruct Hempty as [Hin Hplain]. repeat split; auto.
  - apply (Hin name v H).
  - apply (Hin name v H).
Qed.

(** English is activated with nothing cached and no network: nothing is
    fetched and nothing is loaded. *)
Lemma setAndLoadLanguage_default_locale_example :
  fetchCount (snd (setAndLoadLanguage offline "en" (Some "dashboard") freshWorld)) = 0
  /\ messages (store (snd (setAndLoadLanguage offline "en" (Some "dashboard") freshWorld)))
     = ∅.
Proof.
  destruct (setAndLoadLanguage_default_locale offline (Some "dashboard") freshWorld)
    as (w' & Hrun & _ & Hfc & _ & _ & Hempty).
  rewrite Hrun. simpl. split; [exact Hfc|].
  apply Hempty. intros name Hname. unfold retained in Hname. simpl in Hname.
  assert (name = "common" \/ name = "error" \/ name = "footer" \/ name = "dashboard")
    as [-> | [-> | [-> | ->]]] by set_solver; reflexivity.
Defined.

(** Once a locale has been activated with working stores and an origin serving
    its document, the store and the marker name the same locale, so asking for
    one more section is served from the cache: no fetch in any environment,
    and with readable stores the section of the cached document is loaded. *)
Theorem loadAdditionalSection_served_from_cache {rt : Runtime} env1 locale uiSection w
    status doc :
  locale <> "en" -> locale <> "" ->
  storage_works env1 = true ->
  network env1 (endpoint env1 locale) = Response true status (Json doc) ->
  truthy doc = true ->
  let w1 := snd (setAndLoadLanguage env1 locale uiSection w) in
  currentLocale (store w1) = getCurrentLanguage w1
  /\ (forall env2 sectionName,
        fetchCount (snd (loadAdditionalSection env2 sectionName w1)) = fetchCount w1
        /\ translations (snd (loadAdditionalSection env2 sectionName w1)) = translations w1)
  /\ exists cached : value,
       translations w1 !! "current" = Some cached
       /\ forall env2 sectionName section,
            dbOpens env2 = true -> localStorageReads env2 = true -> dbGets env2 = true ->
            getProp cached sectionName = Return (Some section) ->
            ToBoolean section = true ->
            isSectionLoaded (snd (loadAdditionalSection env2 sectionName w1)) sectionName
            = true.
Proof.
  intros Hen Hempty Hworks Hnet Hdoc. cbv zeta.
  destruct (loadLanguage_serves env1 locale w status doc Hen Hworks Hnet Hdoc)
    as (v & wl & Hload & Hcache & Hv & Huser & Hcount).
  destruct (setAndLoadLanguage_run env1 locale uiSection w)
    as (w1 & Hrun & _ & Htr & Hfc & Hcase).
  destruct (storage_works_flags _ Hworks) as (_ & _ & _ & _ & _ & Hw).
  rewrite Hrun, Hload, Hw in *. simpl in *.
  destruct Hcase as (Hmarker & Hcurrent & _).
  assert (Hmark : getCurrentLanguage w1 = locale).
  { unfold getCurrentLanguage. rewrite Hmarker. apply or_en_Some, Hempty. }
  assert (Hcur : translations w1 !! "current" = Some v) by (rewrite Htr; exact Hcache).
  assert (Hne : currentLocale (store w1) <> "en") by congruence.
  split; [congruence|]. split.
  - intros env2 sectionName.
    rewrite (loadAdditionalSection_run env2 sectionName w1 Hne). simpl.
    rewrite Hcurrent.
    rewrite (proj1 (loadLanguage_cached_unchanged env2 locale w1 v Hen Hmark Hcur Hv)).
    split; reflexivity.
  - exists v. split; [exact Hcur|].
    intros env2 sectionName section Ho Hr Hg Hsec Htruthy.
    assert (Hnn : v <> VNull) by (intros ->; discriminate).
    rewrite (getProp_member _ _ Hnn) in Hsec. injection Hsec as Hsec.
    rewrite (loadAdditionalSection_run env2 sectionName w1 Hne). simpl.
    rewrite Hcurrent.
    rewrite (proj2 (loadLanguage_cached_unchanged env2 locale w1 v Hen Hmark Hcur Hv)
               Ho Hr Hg).
    simpl. rewrite (proj2 (if_ToBoolean_Some _ _) (conj Hsec Htruthy)).
    unfold isSectionLoaded, getProp. simpl. rewrite lookup_insert_eq. reflexivity.
Qed.

(** After the first visit in Spanish, the dashboard is loaded from the cache
    with the network gone. *)
Lemma loadAdditionalSection_served_from_cache_example :
  fetchCount (snd (loadAdditionalSection offline "dashboard" spanishWorld))
    = fetchCount spanishWorld
  /\ isSectionLoaded spanishWorld "dashboard" = false
  /\ isSectionLoaded (snd (loadAdditionalSection offline "dashboard" spanishWorld))
       "dashboard" = true.
Proof.
  pose proof (loadAdditionalSection_served_from_cache online "es" None freshWorld 200
                (VObj fullDocument)) as H.
  destruct H as (_ & Hfetch & _); [discriminate | discriminate | reflexivity..|].
  split; [exact (proj1 (Hfetch offline "dashboard"))|].
  split; vm_compute; reflexivity.
Defined.

(** ** Initialization *)

Lemma initializeLanguage_persisted_eq {rt : Runtime} platform env w locale :
  localStorageReads env = true ->
  userLanguage w = Some locale -> locale <> "" ->
  initializeLanguage platform env w = setAndLoadLanguage env locale None w.
Proof.
  intros Hr Hstored Hne.
  assert (Hen : or_en (Some locale) = locale) by (apply or_en_Some, Hne).
  assert (Helse : forall other, or_else (Some locale) other = locale).
  { intros other. unfold or_else. destruct (String.eqb_spec locale ""); congruence. }
  unfold initializeLanguage, localStorage_getItem.
  rewrite Hr. unfold mbind, mret, M_bind, M_ret, gets, try_catch. rewrite Hstored, Hen.
  destruct (isNativePlatform platform); [|reflexivity].
  destruct (getLanguageCode platform) as [code|]; [|reflexivity].
  destruct (bool_decide _); [|reflexivity].
  rewrite Hstored, Helse. reflexivity.
Qed.

(** A persisted, non-empty preference decides the initial locale, whatever
    the device reports and whether or not the locale is a supported one. *)
Theorem initializeLanguage_prefers_persisted {rt : Runtime} platform env w locale :
  localStorageReads env = true ->
  userLanguage w = Some locale -> locale <> "" ->
  initializeLanguage platform env w = setAndLoadLanguage env locale None w.
Proof. apply initializeLanguage_persisted_eq. Qed.

(** A phone set to Spanish starts in French when French was chosen before;
    a persisted "de" is activated although it is not supported. *)
Lemma initializeLanguage_prefers_persisted_example :
  currentLocale (store (snd (initializeLanguage spanishPhone online frenchPreference)))
    = "fr"
  /\ currentLocale (store (snd (initializeLanguage browser online germanPreference)))
    = "de".
Proof.
  split.
  - rewrite (initializeLanguage_prefers_persisted spanishPhone online frenchPreference
               "fr" eq_refl eq_refl); [reflexivity | discriminate].
  - rewrite (initializeLanguage_prefers_persisted browser online germanPreference
               "de" eq_refl eq_refl); [reflexivity | discriminate].
Defined.

(** With no preference persisted, a native platform whose language code starts
    with a supported locale starts in that locale. *)
Theorem initializeLanguage_uses_device_language {rt : Runtime} platform env w code :
  localStorageReads env = true ->
  userLanguage w = None \/ userLanguage w = Some "" ->
  isNativePlatform platform = true ->
  getLanguageCode platform = Some code ->
  substring 0 2 code ∈ supportedLocales (store w) ->
  initializeLanguage platform env w
  = setAndLoadLanguage env (substring 0 2 code) None w.
Proof.
  intros Hr Hstored Hnative Hcode Hsupported.
  unfold initializeLanguage, localStorage_getItem.
  rewrite Hr, Hnative, Hcode.
  unfold mbind, mret, M_bind, M_ret, gets, try_catch. cbv beta.
  destruct (bool_decide _) eqn:Hb;
    [|apply bool_decide_eq_false in Hb; contradiction].
  destruct Hstored as [-> | ->]; reflexivity.
Qed.

(** A phone set to Mexican Spanish, on its first start, activates "es". *)
Lemma initializeLanguage_uses_device_language_example :
  currentLocale (store (snd (initializeLanguage spanishPhone online freshWorld))) = "es"
  /\ userLanguage (snd (initializeLanguage spanishPhone online freshWorld)) = Some "es".
Proof.
  rewrite (initializeLanguage_uses_device_language spanishPhone online freshWorld "es-MX"
             eq_refl (or_introl eq_refl) eq_refl eq_refl).
  - split; reflexivity.
  - vm_compute. apply list_elem_of_further, list_elem_of_here.
Defined.

(** With no preference persisted, the initial locale is "en" off a native
    platform, when the probe fails, and when the device's language is not a
    supported one. *)
Theorem initializeLanguage_falls_back_to_english {rt : Runtime} platform env w :
  localStorageReads env = true ->
  userLanguage w = None \/ userLanguage w = Some "" ->
  isNativePlatform platform = false
  \/ getLanguageCode platform = None
  \/ (exists code, getLanguageCode platform = Some code
                   /\ substring 0 2 code ∉ supportedLocales (store w)) ->
  initializeLanguage platform env w = setAndLoadLanguage env "en" None w.
Proof.
  intros Hr Hstored Hdevice.
  assert (Hen : or_en (userLanguage w) = "en") by (destruct Hstored as [-> | ->]; reflexivity).
  unfold initializeLanguage, localStorage_getItem.
  rewrite Hr. unfold mbind, mret, M_bind, M_ret, gets, try_catch. rewrite Hen.
  destruct Hdevice as [-> | [Hnone | (code & Hcode & Hnot)]]; [reflexivity| |].
  - rewrite Hnone. destruct (isNativePlatform platform); reflexivity.
  - rewrite Hcode. destruct (isNativePlatform platform); [|reflexivity]. cbv beta.
    match goal with |- context [bool_decide ?P] => destruct (bool_decide P) eqn:Hb end;
      [apply bool_decide_eq_true in Hb; contradiction|reflexivity].
Qed.

(** A German phone and a phone whose probe fails both start in English. *)
Lemma initializeLanguage_falls_back_to_english_example :
  currentLocale (store (snd (initializeLanguage germanPhone online freshWorld))) = "en"
  /\ currentLocale (store (snd (initializeLanguage brokenPhone online freshWorld))) = "en".
Proof.
  split.
  - rewrite (initializeLanguage_falls_back_to_english germanPhone online freshWorld
               eq_refl (or_introl eq_refl)); [reflexivity|].
    right. right. exists "de-DE". split; [reflexivity|].
    vm_compute. intros H. repeat (apply elem_of_cons in H; destruct H as [H|H];
      [discriminate H|]). by apply elem_of_nil in H.
  - rewrite (initializeLanguage_falls_back_to_english brokenPhone online freshWorld
               eq_refl (or_introl eq_refl)); [reflexivity|].
    right. left. reflexivity.
Defined.

(** [initializeLanguage] throws exactly when the preference cannot be read,
    and then before anything has changed; otherwise it returns with the busy
    flag down. *)
Theorem initializeLanguage_fails_only_on_unreadable_preference {rt : Runtime} platform env w :
  (localStorageReads env = false ->
   initializeLanguage platform env w = (Throw LocalStorageError, w))
  /\ (localStorageReads env = true ->
      exists w', initializeLanguage platform env w = (Return tt, w')
                 /\ isLoading (store w') = false).
Proof.
  split; intros Hr.
  - unfold initializeLanguage, localStorage_getItem. rewrite Hr. reflexivity.
  - assert (Hchoice : exists locale,
              initializeLanguage platform env w = setAndLoadLanguage env locale None w).
    { unfold initializeLanguage, localStorage_getItem. rewrite Hr.
      unfold mbind, mret, M_bind, M_ret, gets, try_catch.
      destruct (isNativePlatform platform); [|eauto].
      destruct (getLanguageCode platform); [|eauto].
      destruct (bool_decide _); eauto. }
    destruct Hchoice as [locale ->].
    destruct (setAndLoadLanguage_run env locale None w) as (w' & Hrun & Hbusy & _).
    eauto.
Qed.

(** Without [localStorage] the application start fails, on a phone as in a
    browser. *)
Lemma initializeLanguage_fails_only_on_unreadable_preference_example :
  initializeLanguage spanishPhone withoutLocalStorage freshWorld
  = (Throw LocalStorageError, freshWorld).
Proof.
  apply (proj1 (initializeLanguage_fails_only_on_unreadable_preference
                  spanishPhone withoutLocalStorage freshWorld)).
  reflexivity.
Defined.

(** A repeat visit costs no network: with a preference persisted and a truthy
    document under it in the cache, initialization issues no fetch, in any
    environment and on any platform. *)
Theorem initializeLanguage_repeat_visit {rt : Runtime} platform env w locale cached :
  userLanguage w = Some locale -> locale <> "" -> locale <> "en" ->
  translations w !! "current" = Some cached -> truthy cached = true ->
  fetchCount (snd (initializeLanguage platform env w)) = fetchCount w
  /\ translations (snd (initializeLanguage platform env w)) = translations w.
Proof.
  intros Hstored Hne Hen Hcur Htruthy.
  destruct (localStorageReads env) eqn:Hr.
  - rewrite (initializeLanguage_persisted_eq platform env w locale Hr Hstored Hne).
    destruct (setAndLoadLanguage_run env locale None w) as (w' & Hrun & _ & Htr & Hfc & _).
    rewrite Hrun. simpl. rewrite Htr, Hfc.
    assert (Hmark : getCurrentLanguage w = locale).
    { unfold getCurrentLanguage. rewrite Hstored. apply or_en_Some, Hne. }
    rewrite (proj1 (loadLanguage_cached_unchanged env locale w cached Hen Hmark Hcur Htruthy)).
    split; reflexivity.
  - unfold initializeLanguage, localStorage_getItem. rewrite Hr. split; reflexivity.
Qed.

(** The Spanish visitor comes back with the network gone: no fetch, and the
    cache is as it was. *)
Lemma initializeLanguage_repeat_visit_example :
  fetchCount (snd (initializeLanguage germanPhone offline spanishWorld))
    = fetchCount spanishWorld
  /\ translations (snd (initializeLanguage germanPhone offline spanishWorld))
    = translations spanishWorld.
Proof.
  apply (initializeLanguage_repeat_visit germanPhone offline spanishWorld "es"
           (VObj fullDocument)); try reflexivity; discriminate.
Defined.

(** ** The cache on its own *)

(** The marker is never the empty string. *)
Lemma getCurrentLanguage_nonempty w : String.eqb (getCurrentLanguage w) "" = false.
Proof.
  unfold getCurrentLanguage, or_en. destruct (userLanguage w) as [l|]; [|reflexivity].
  destruct (String.eqb l "") eqn:H; [reflexivity|exact H].
Qed.

(** [languageDB.set] written out for working stores: the marker stays, and
    the store is cleared first unless the marker is the locale written. *)
Lemma languageDB_set_eq env locale doc w :
  dbOpens env = true -> localStorageReads env = true ->
  dbClears env = true -> dbPuts env = true ->
  languageDB_set env locale doc w =
  (Return tt,
   with_translations
     (fun stored => if String.eqb (getCurrentLanguage w) locale
                    then <["current" := doc]> stored
                    else {["current" := doc]}) w).
Proof.
  intros Ho Hr Hc Hp.
  unfold languageDB_set, dbPromise, localStorage_getItem, db_clear, db_put.
  rewrite Ho, Hr, Hc, Hp. unfold mbind, mret, M_bind, M_ret, gets, modify.
  fold (getCurrentLanguage w). rewrite getCurrentLanguage_nonempty. simpl.
  destruct (String.eqb (getCurrentLanguage w) locale); reflexivity.
Qed.

(** Writing a document and reading it back: [languageDB.set] does not move the
    marker, so a [get] that follows returns the document written to the
    locale the marker names, and [undefined] to every other locale, the one
    just written included. *)
Theorem languageDB_set_then_get env locale doc w :
  storage_works env = true ->
  exists w1,
    languageDB_set env locale doc w = (Return tt, w1)
    /\ getCurrentLanguage w1 = getCurrentLanguage w
    /\ translations w1 !! "current" = Some doc
    /\ (getCurrentLanguage w <> locale -> translations w1 = {[ "current" := doc ]})
    /\ forall requested,
         languageDB_get env requested w1 =
         (Return (if String.eqb (getCurrentLanguage w) requested then Some doc else None),
          w1).
Proof.
  intros Hworks.
  destruct (storage_works_flags _ Hworks) as (Ho & Hg & Hp & Hc & Hr & _).
  eexists. split; [apply languageDB_set_eq; assumption|].
  split; [reflexivity|].
  assert (Hcur : (if String.eqb (getCurrentLanguage w) locale
                  then <["current" := doc]> (translations w)
                  else {["current" := doc]}) !! "current" = Some doc).
  { destruct (String.eqb _ _); [apply lookup_insert_eq|apply lookup_singleton_eq]. }
  split; [exact Hcur|]. split.
  - intros Hne. simpl. destruct (String.eqb_spec (getCurrentLanguage w) locale);
      [contradiction|reflexivity].
  - intros requested. rewrite languageDB_get_eq, Ho, Hr, Hg.
    change (getCurrentLanguage (with_translations _ w)) with (getCurrentLanguage w).
    destruct (String.eqb (getCurrentLanguage w) requested); [|reflexivity].
    simpl. rewrite Hcur. reflexivity.
Qed.

(** On a first visit the marker is "en": the French document just written is
    not handed out to a request for French. *)
Lemma languageDB_set_then_get_example :
  exists w1,
    languageDB_set online "fr" (VObj frenchDocument) freshWorld = (Return tt, w1)
    /\ languageDB_get online "fr" w1 = (Return None, w1)
    /\ languageDB_get online "en" w1 = (Return (Some (VObj frenchDocument)), w1).
Proof.
  destruct (languageDB_set_then_get online "fr" (VObj frenchDocument) freshWorld eq_refl)
    as (w1 & Hset & _ & _ & _ & Hget).
  exists w1. split; [exact Hset|]. split; [exact (Hget "fr")|exact (Hget "en")].
Defined.

(** After [clearLanguageCache] the cache answers no locale, and the next load
    of a locale fetches once and leaves its document alone in the store. *)
Theorem clearLanguageCache_forces_refetch env locale w status doc :
  locale <> "en" ->
  storage_works env = true ->
  network env (endpoint env locale) = Response true status (Json doc) ->
  truthy doc = true ->
  exists w1,
    clearLanguageCache env w = (Return tt, w1)
    /\ translations w1 = ∅
    /\ (forall requested, languageDB_get env requested w1 = (Return None, w1))
    /\ exists w2,
         loadLanguage env locale w1 = (Return doc, w2)
         /\ fetchCount w2 = S (fetchCount w)
         /\ translations w2 = {[ "current" := doc ]}.
Proof.
  intros Hen Hworks Hnet Hdoc.
  destruct (storage_works_flags _ Hworks) as (Ho & Hg & Hp & Hc & Hr & _).
  assert (Hclear : clearLanguageCache env w
                   = (Return tt, with_translations (fun _ => ∅) w)).
  { unfold clearLanguageCache, languageDB_clear, dbPromise, db_clear.
    rewrite Ho, Hc. reflexivity. }
  set (w1 := with_translations (fun _ => ∅) w) in *.
  assert (Hget : forall requested, languageDB_get env requested w1 = (Return None, w1)).
  { intros requested. rewrite languageDB_get_eq, Ho, Hr, Hg.
    destruct (String.eqb _ _); reflexivity. }
  exists w1. split; [exact Hclear|]. split; [reflexivity|]. split; [exact Hget|].
  unfold loadLanguage. destruct (String.eqb_spec locale "en"); [contradiction|].
  unfold mbind at 1. unfold M_bind at 1. rewrite Hget. simpl.
  unfold try_catch, fetch, mbind, M_bind. rewrite Hnet. simpl.
  assert (Hkeys : forall w0, Object_keys_check doc w0 = (Return tt, w0)).
  { intros w0. destruct doc; try reflexivity. discriminate. }
  rewrite Hkeys, languageDB_set_eq by assumption.
  eexists. split; [reflexivity|]. simpl. split; [reflexivity|].
  destruct (String.eqb _ _); [apply insert_empty|reflexivity].
Qed.

(** The Spanish visitor clears the cache: loading Spanish again costs a second
    fetch. *)
Lemma clearLanguageCache_forces_refetch_example :
  fetchCount spanishWorld = 1
  /\ fetchCount (snd (loadLanguage online "es"
                        (snd (clearLanguageCache online spanishWorld)))) = 2.
Proof.
  destruct (clearLanguageCache_forces_refetch online "es" spanishWorld 200
              (VObj fullDocument)) as (w1 & Hclear & _ & _ & w2 & Hload & Hfc & _);
    [discriminate | reflexivity..|].
  rewrite Hclear. simpl. rewrite Hload. simpl. rewrite Hfc. split; reflexivity.
Defined.

(** A switch of locale that fails at the write loses the previous document
    too: the store is cleared for the new locale before the write, so when
    [put] fails the loader returns [{}] over an empty cache. *)
Theorem loadLanguage_failed_write_empties_cache env locale w status doc :
  locale <> "en" ->
  getCurrentLanguage w <> locale ->
  dbOpens env = true -> localStorageReads env = true ->
  dbClears env = true -> dbPuts env = false ->
  network env (endpoint env locale) = Response true status (Json doc) ->
  truthy doc = true ->
  exists w1,
    loadLanguage env locale w = (Return (VObj ∅), w1)
    /\ translations w1 = ∅
    /\ fetchCount w1 = S (fetchCount w).
Proof.
  intros Hen Hmark Ho Hr Hc Hp Hnet Hdoc.
  unfold loadLanguage. destruct (String.eqb_spec locale "en"); [contradiction|].
  unfold mbind at 1. unfold M_bind at 1.
  rewrite (languageDB_get_other_marker env locale w Hmark Ho Hr). simpl.
  unfold try_catch, fetch, mbind, M_bind. rewrite Hnet. simpl.
  assert (Hkeys : forall w0, Object_keys_check doc w0 = (Return tt, w0)).
  { intros w0. destruct doc; try reflexivity. discriminate. }
  rewrite Hkeys.
  unfold languageDB_set, dbPromise, localStorage_getItem, db_clear, db_put.
  rewrite Ho, Hr, Hc, Hp. unfold mbind, mret, M_bind, M_ret, gets, modify, throw. simpl.
  fold (getCurrentLanguage w). rewrite getCurrentLanguage_nonempty.
  destruct (String.eqb_spec (getCurrentLanguage w) locale); [contradiction|].
  simpl. eexists. split; [reflexivity|]. split; reflexivity.
Qed.

(** The Spanish visitor switches to French on a device that cannot write to
    IndexedDB: the Spanish document is gone and nothing is loaded. *)
Lemma loadLanguage_failed_write_empties_cache_example :
  translations spanishWorld !! "current" = Some (VObj fullDocument)
  /\ loadLanguage fullDisk "fr" spanishWorld
     = (Return (VObj ∅), snd (loadLanguage fullDisk "fr" spanishWorld))
  /\ translations (snd (loadLanguage fullDisk "fr" spanishWorld)) = ∅.
Proof.
  destruct (loadLanguage_failed_write_empties_cache fullDisk "fr" spanishWorld 200
              (VObj frenchDocument)) as (w1 & Hload & Hempty & _);
    try reflexivity; try discriminate.
  rewrite Hload. simpl. split; [reflexivity|]. split; [reflexivity|exact Hempty].
Defined.

(** ** Failed activations *)

(** What [setAndLoadLanguage] leaves of the locale and of the document's
    language when it could not finish. *)
Lemma setAndLoadLanguage_run_failed {rt : Runtime} env locale uiSection w :
  exists w',
    setAndLoadLanguage env locale uiSection w = (Return tt, w')
    /\ match fst (loadLanguage env locale w) with
       | Return _ =>
           localStorageWrites env = false ->
           currentLocale (store w') = locale /\ documentLang w' = documentLang w
       | Throw _ =>
           currentLocale (store w') = currentLocale (store w)
           /\ documentLang w' = documentLang w
       end.
Proof.
  unfold setAndLoadLanguage, set_isLoading.
  unfold mbind, M_bind, modify, try_finally, try_catch.
  rewrite loadLanguage_with_store.
  pose proof (loadLanguage_store env locale w) as [Hstore Hlang].
  destruct (loadLanguage env locale w) as [[allMessages|e] w1] eqn:Hload; simpl in *.
  - assert (Hnn : allMessages <> VNull).
    { intros ->. exact (loadLanguage_not_null _ _ _ _ Hload). }
    match goal with |- context [filterSections ?a ?s ?acc ?w0] =>
      destruct (filterSections_run a s acc w0 Hnn) as (filtered & -> & _) end.
    unfold localStorage_setItem, set_messages, with_messages, set_currentLocale,
      set_documentLang, modify, throw.
    destruct (localStorageWrites env); simpl.
    + eexists. split; [reflexivity|]. discriminate.
    + eexists. split; [reflexivity|]. simpl. auto.
  - unfold set_messages, with_messages, modify. eexists. split; [reflexivity|]. simpl.
    rewrite Hstore. auto.
Qed.

(** An activation that cannot persist the preference still switches the
    store's locale, but ends with no content and with the old marker: the
    store and the cache then name different locales.  An activation whose load
    throws keeps the old locale and ends with no content either. *)
Theorem setAndLoadLanguage_failed_activation {rt : Runtime} env locale uiSection w :
  let w' := snd (setAndLoadLanguage env locale uiSection w) in
  ((exists doc, fst (loadLanguage env locale w) = Return doc) ->
   localStorageWrites env = false ->
   currentLocale (store w') = locale
   /\ messages (store w') = ∅
   /\ getCurrentLanguage w' = getCurrentLanguage w
   /\ documentLang w' = documentLang w)
  /\ ((exists e, fst (loadLanguage env locale w) = Throw e) ->
      currentLocale (store w') = currentLocale (store w)
      /\ messages (store w') = ∅
      /\ getCurrentLanguage w' = getCurrentLanguage w
      /\ documentLang w' = documentLang w).
Proof.
  cbv zeta.
  destruct (setAndLoadLanguage_run env locale uiSection w)
    as (w' & Hrun & _ & _ & _ & Hcase).
  destruct (setAndLoadLanguage_run_failed env locale uiSection w)
    as (w'' & Hrun' & Hfailed).
  rewrite Hrun in Hrun'. injection Hrun' as <-. rewrite Hrun. simpl.
  pose proof (loadLanguage_userLanguage env locale w) as Huser.
  unfold getCurrentLanguage.
  split.
  - intros [doc Hdoc] Hw. rewrite Hdoc, Hw in *.
    destruct Hcase as [-> Hempty]. destruct (Hfailed eq_refl) as [Hcur Hlang].
    rewrite Huser. auto.
  - intros [e He]. rewrite He in *. destruct Hcase as [-> Hempty].
    destruct Hfailed as [Hcur Hlang]. rewrite Huser. auto.
Qed.

(** French is served and cached, but the preference cannot be written: the
    store says French with nothing loaded, the marker still says "en". *)
Lemma setAndLoadLanguage_failed_activation_example :
  currentLocale (store (snd (setAndLoadLanguage readOnlyPreferences "fr" None freshWorld)))
    = "fr"
  /\ messages (store (snd (setAndLoadLanguage readOnlyPreferences "fr" None freshWorld)))
    = ∅
  /\ getCurrentLanguage (snd (setAndLoadLanguage readOnlyPreferences "fr" None freshWorld))
    = "en".
Proof.
  destruct (proj1 (setAndLoadLanguage_failed_activation readOnlyPreferences "fr" None
                     freshWorld)) as (Hcur & Hempty & Hmark & _).
  - exists (VObj frenchDocument). reflexivity.
  - reflexivity.
  - split; [exact Hcur|]. split; [exact Hempty|]. rewrite Hmark. reflexivity.
Defined.

(** ** Captions and sections *)

(** What [caption] returns depends on the loaded content only through what
    the walk of the key gives. *)
Lemma caption_depends_on_lookup {rt : Runtime} messages messages' english stats key
    fallback params :
  getNestedValue messages key = getNestedValue messages' key ->
  caption messages english stats key fallback params
  = caption messages' english stats key fallback params.
Proof. intros H. unfold caption, caption_try. rewrite H. reflexivity. Qed.

(** No store hit without a truthy value in the store. *)
Lemma caption_no_store_hit {rt : Runtime} messages english stats key fallback params o :
  getNestedValue messages key = Return o -> if_ToBoolean o = None ->
  storeHits (snd (caption messages english stats key fallback params)) = storeHits stats.
Proof.
  intros Ho Hnone. rewrite (caption_not_store _ _ _ _ _ _ _ Ho Hnone).
  destruct (getNestedValue english key) as [o'|e]; [|reflexivity].
  destruct (if_ToBoolean o'); [reflexivity|].
  destruct (fallback_or_key_source fallback key) as [-> | ->]; reflexivity.
Qed.

(** A name a plain object does not answer to: the same for every such
    object. *)
Lemma isSectionLoaded_false {rt : Runtime} w section :
  isSectionLoaded w section = false ->
  messages (store w) !! section = None /\ inherited KObject section = None.
Proof.
  unfold isSectionLoaded, getProp, orInherited, own.
  destruct (messages (store w) !! section); [discriminate|].
  destruct (inherited KObject section); [discriminate|]. auto.
Qed.

(** Lazy loading seen from the resolver: a key whose first segment names a
    section that is not loaded does not exist in the store, and its caption is
    the one an empty store would give (the English text, the fallback or the
    key), whatever else is loaded. *)
Theorem caption_of_unloaded_section {rt : Runtime} w english stats key fallback params
    section rest :
  split "." key = section :: rest ->
  isSectionLoaded w section = false ->
  hasTranslation (Obj (messages (store w))) key = Return false
  /\ caption (Obj (messages (store w))) english stats key fallback params
     = caption (Obj ∅) english stats key fallback params
  /\ storeHits (snd (caption (Obj (messages (store w))) english stats key fallback params))
     = storeHits stats.
Proof.
  intros Hsplit Hloaded.
  destruct (isSectionLoaded_false w section Hloaded) as [Hown Hinh].
  assert (Hnone : getNestedValue (Obj (messages (store w))) key = Return None).
  { unfold getNestedValue. rewrite Hsplit. simpl.
    unfold getProp, orInherited, own. rewrite Hown, Hinh. reflexivity. }
  assert (Hempty : getNestedValue (Obj ∅) key = Return None).
  { unfold getNestedValue. rewrite Hsplit. simpl.
    unfold getProp, orInherited, own. rewrite lookup_empty, Hinh. reflexivity. }
  split; [unfold hasTranslation; rewrite Hnone; reflexivity|].
  split.
  - apply caption_depends_on_lookup. rewrite Hnone, Hempty. reflexivity.
  - apply (caption_no_store_hit _ _ _ _ _ _ None Hnone). reflexivity.
Qed.

(** In the Spanish world the dashboard is not loaded: its welcome text comes
    from the English document. *)
Lemma caption_of_unloaded_section_example :
  caption (Obj (messages (store spanishWorld)))
          (VObj {[ "dashboard" := VObj {[ "welcome" := VStr "Welcome back, {name}!" ]} ]})
          noStats "dashboard.welcome" None (Some [("name", PStr "Ava")])
  = (Data (VStr "Welcome back, Ava!"),
     {| storeHits := 0; fallbackHits := 1; missingKeys := 0 |}).
Proof.
  assert (Hloaded : isSectionLoaded spanishWorld "dashboard" = false)
    by (vm_compute; reflexivity).
  rewrite (proj1 (proj2 (caption_of_unloaded_section spanishWorld _ noStats
     "dashboard.welcome" None (Some [("name", PStr "Ava")]) "dashboard" ["welcome"]
     eq_refl Hloaded))).
  reflexivity.
Defined.

(** What one call of [caption] does to the statistics does not depend on
    them: it counts one event, or none when the [catch] is entered before a
    value was found. *)
Lemma caption_counts {rt : Runtime} messages english stats key fallback params :
  total (snd (caption messages english stats key fallback params))
  = total stats + total (snd (caption messages english noStats key fallback params))
  /\ total (snd (caption messages english noStats key fallback params)) <= 1.
Proof.
  unfold caption, caption_try.
  destruct (getNestedValue messages key) as [o|e]; [|unfold total; simpl; lia].
  destruct (if_ToBoolean o) as [v|].
  - destruct (templateThrows v); unfold total; simpl; lia.
  - destruct (getNestedValue english key) as [o'|e]; [|unfold total; simpl; lia].
    destruct (if_ToBoolean o') as [v|].
    + destruct (templateThrows v); unfold total; simpl; lia.
    + destruct (fallback_or_key fallback key) as [t src].
      destruct src; unfold total; simpl; lia.
Qed.

(** It counts exactly one when neither walk throws. *)
Lemma caption_counts_one {rt : Runtime} messages english key fallback params :
  (forall e, getNestedValue messages key <> Throw e) ->
  (forall e, getNestedValue english key <> Throw e) ->
  total (snd (caption messages english noStats key fallback params)) = 1.
Proof.
  intros Hs He. unfold caption, caption_try.
  destruct (getNestedValue messages key) as [o|e]; [|exfalso; exact (Hs e eq_refl)].
  destruct (if_ToBoolean o) as [v|].
  - destruct (templateThrows v); reflexivity.
  - destruct (getNestedValue english key) as [o'|e]; [|exfalso; exact (He e eq_refl)].
    destruct (if_ToBoolean o') as [v|].
    + destruct (templateThrows v); reflexivity.
    + destruct (fallback_or_key fallback key) as [t src].
      destruct src; reflexivity.
Qed.

(** The text [caption] returns does not depend on the statistics. *)
Lemma caption_text {rt : Runtime} messages english stats stats' key fallback params :
  fst (caption messages english stats key fallback params)
  = fst (caption messages english stats' key fallback params).
Proof.
  unfold caption, caption_try.
  destruct (getNestedValue messages key) as [o|e]; [|reflexivity].
  destruct (if_ToBoolean o) as [v|].
  - destruct (templateThrows v); reflexivity.
  - destruct (getNestedValue english key) as [o'|e]; [|reflexivity].
    destruct (if_ToBoolean o') as [v|].
    + destruct (templateThrows v); reflexivity.
    + destruct (fallback_or_key fallback key). reflexivity.
Qed.

Lemma captions_fold {rt : Runtime} messages english keys :
  forall (result : gmap string jsvalue) (stats : TranslationStats),
  let events key := total (snd (caption messages english noStats key None None)) in
  let out :=
    fold_left
      (fun '(result, st) key =>
         let '(t, st') := caption messages english st key None None in
         (assign result key t, st'))
      keys (result, stats) in
  total (snd out) = total stats + sum_list (events <$> keys)
  /\ forall key, fst out !! key =
       if bool_decide (key ∈ keys) && negb (String.eqb key "__proto__")
       then Some (fst (caption messages english noStats key None None))
       else result !! key.
Proof.
  induction keys as [|k keys IH]; intros result stats; cbv zeta.
  - simpl. split; [lia|]. intros key. reflexivity.
  - simpl. destruct (caption messages english stats k None None) as [t st'] eqn:Hcap.
    destruct (IH (assign result k t) st') as [Htotal Hlook]. split.
    + rewrite Htotal.
      pose proof (proj1 (caption_counts messages english stats k None None)) as Hone.
      rewrite Hcap in Hone. simpl in Hone. rewrite Hone, <- Nat.add_assoc. reflexivity.
    + intros key. rewrite Hlook, lookup_assign.
      destruct (decide (key = k)) as [->|Hne].
      * rewrite (bool_decide_eq_true_2 (k ∈ k :: keys)) by apply list_elem_of_here.
        rewrite (bool_decide_eq_true_2 (k = k)) by reflexivity.
        rewrite (caption_text messages english noStats stats k None None), Hcap.
        destruct (bool_decide (k ∈ keys)), (negb (String.eqb k "__proto__")); reflexivity.
      * rewrite (bool_decide_ext (key ∈ k :: keys) (key ∈ keys))
          by (rewrite elem_of_cons; tauto).
        rewrite (bool_decide_eq_false_2 (key = k)) by exact Hne.
        reflexivity.
Qed.

(** [captions] resolves every key as [caption] would on its own.  The object
    it returns holds, under each key of the list but [__proto__] and under no
    other, what [caption] returns for that key.  The statistics advance by
    what the calls count one after the other, repeated keys included: one
    event per element of the list when no walk throws, and never more. *)
Theorem captions_resolves_each_key {rt : Runtime} messages english stats keys :
  let events key := total (snd (caption messages english noStats key None None)) in
  (forall key,
     fst (captions messages english stats keys) !! key =
     if bool_decide (key ∈ keys) && negb (String.eqb key "__proto__")
     then Some (fst (caption messages english noStats key None None))
     else None)
  /\ total (snd (captions messages english stats keys))
     = total stats + sum_list (events <$> keys)
  /\ total (snd (captions messages english stats keys)) <= total stats + length keys
  /\ ((forall key, key ∈ keys ->
         (forall e, getNestedValue messages key <> Throw e)
         /\ (forall e, getNestedValue english key <> Throw e)) ->
      total (snd (captions messages english stats keys)) = total stats + length keys).
Proof.
  cbv zeta.
  destruct (captions_fold messages english keys ∅ stats) as [Htotal Hlook].
  cbv zeta in Htotal. fold (captions messages english stats keys) in Htotal, Hlook.
  split; [|split; [exact Htotal|split]].
  - intros key. rewrite Hlook, lookup_empty. reflexivity.
  - rewrite Htotal. clear. apply Nat.add_le_mono_l.
    induction keys as [|k keys IH]; simpl; [lia|].
    pose proof (proj2 (caption_counts messages english noStats k None None)).
    unfold fmap in *. lia.
  - intros Hwalks. rewrite Htotal. f_equal. clear Htotal Hlook.
    induction keys as [|k keys IH]; simpl; [reflexivity|].
    destruct (Hwalks k (list_elem_of_here _ _)) as [Hs He].
    rewrite (caption_counts_one messages english k None None Hs He).
    unfold fmap in *. rewrite IH; [reflexivity|].
    intros key Hkey. apply Hwalks, list_elem_of_further, Hkey.
Qed.

(** Three keys against the Spanish content: the first is found; the second
    is found among the inherited members, counts a store hit and leaves no
    entry in the result; the third makes the walk throw and counts nothing. *)
Example captions_example :
  captions spanishContent englishSample noStats
           ["common.save"; "__proto__"; "constructor.caller"]
  = ({[ "common.save" := Data (VStr "Guardar");
        "constructor.caller" := Data (VStr "constructor.caller") ]},
     {| storeHits := 2; fallbackHits := 0; missingKeys := 0 |}).
Proof. vm_compute. reflexivity. Qed.

(** ** Interpolation *)

(** A text in which the pattern does not stand is returned as it is. *)
Lemma replace_absent s pat replacement :
  (forall before after, s <> before ++ pat ++ after) ->
  replace s pat replacement = s.
Proof.
  intros Habsent. unfold replace. pose proof (find_first_spec pat s) as H.
  destruct (find_first pat s) as [[before after]|]; [|reflexivity].
  destruct H as [H _]. exfalso. exact (Habsent _ _ H).
Qed.

(** Parameters whose placeholders do not stand in the text leave it as it
    is, whatever their values. *)
Theorem interpolate_without_placeholder params text :
  (forall paramKey paramValue, (paramKey, paramValue) ∈ params ->
     forall before after, text <> before ++ ("{" ++ paramKey ++ "}") ++ after) ->
  interpolate params text = text.
Proof.
  unfold interpolate. induction params as [|[k v] params IH]; intros Habsent;
    [reflexivity|].
  simpl. rewrite replace_absent.
  - apply IH. intros k' v' Hin. apply (Habsent k' v'). apply list_elem_of_further, Hin.
  - apply (Habsent k v). apply list_elem_of_here.
Qed.

(** "Hello, {user}!" has no placeholder for [name] or [count]. *)
Lemma interpolate_without_placeholder_example :
  interpolate [("name", PStr "Ava"); ("count", PNum 3)] "Hello, {user}!"
  = "Hello, {user}!".
Proof.
  apply (interpolate_without_placeholder
           [("name", PStr "Ava"); ("count", PNum 3)] "Hello, {user}!").
  intros k v Hin.
  apply elem_of_cons in Hin. destruct Hin as [[= -> ->]|Hin].
  - exact (find_first_spec "{name}" "Hello, {user}!").
  - apply elem_of_cons in Hin. destruct Hin as [[= -> ->]|Hin].
    + exact (find_first_spec "{count}" "Hello, {user}!").
    + by apply elem_of_nil in Hin.
Defined.

Lemma drop_chars_app pat after : drop_chars (String.length pat) (pat ++ after) = after.
Proof. induction pat as [|c pat IH]; [reflexivity|]. rewrite append_cons. exact IH. Qed.

(** A pattern whose first character does not stand in [before] is first
    found right after [before]. *)
Lemma find_first_after c pat after : forall before,
  occurs c before = false ->
  find_first (String c pat) (before ++ String c pat ++ after) = Some (before, after).
Proof.
  induction before as [|d before IH]; intros Hocc; rewrite find_first_eq.
  - rewrite append_nil_l, prefix_app, drop_chars_app. reflexivity.
  - simpl in Hocc. apply orb_false_iff in Hocc. destruct Hocc as [Hcd Hocc].
    rewrite append_cons.
    assert (Hprefix : String.prefix (String c pat) (String d (before ++ String c pat ++ after))
                      = false).
    { simpl. destruct (Ascii.ascii_dec c d) as [->|]; [|reflexivity].
      rewrite Ascii.eqb_refl in Hcd. discriminate. }
    rewrite Hprefix, (IH Hocc). reflexivity.
Qed.

(** A replacement without a dollar sign is inserted as it is. *)
Lemma getSubstitution_verbatim matched before after : forall replacement,
  occurs "$" replacement = false ->
  getSubstitution matched before after replacement = replacement.
Proof.
  induction replacement as [|c r IH]; intros Hocc; [reflexivity|].
  simpl in Hocc. apply orb_false_iff in Hocc. destruct Hocc as [Hc Hr].
  specialize (IH Hr). simpl.
  destruct c as [[] [] [] [] [] [] [] []]; try (rewrite IH; reflexivity).
  discriminate Hc.
Qed.

(** One parameter, one placeholder: in a text whose part before the
    placeholder holds no opening brace, the placeholder is replaced by the
    stringified value, provided the value holds no dollar sign; the text before
    and after it is kept. *)
Theorem interpolate_single_placeholder before after paramKey paramValue :
  occurs "{" before = false ->
  occurs "$" (String_ paramValue) = false ->
  interpolate [(paramKey, paramValue)] (before ++ ("{" ++ paramKey ++ "}") ++ after)
  = before ++ String_ paramValue ++ after.
Proof.
  intros Hbrace Hdollar. unfold interpolate. simpl. unfold replace.
  change ("{" ++ paramKey ++ "}") with (String "{" (paramKey ++ "}")).
  rewrite (find_first_after "{" (paramKey ++ "}") after before Hbrace).
  rewrite (getSubstitution_verbatim _ _ _ _ Hdollar). reflexivity.
Qed.

(** The specification's welcome text, and a count. *)
Lemma interpolate_single_placeholder_example :
  interpolate [("name", PStr "Ava")] "Welcome back, {name}!" = "Welcome back, Ava!"
  /\ interpolate [("count", PNum 12)] "You have {count} new messages"
     = "You have 12 new messages".
Proof.
  split.
  - exact (interpolate_single_placeholder "Welcome back, " "!" "name" (PStr "Ava")
             eq_refl eq_refl).
  - exact (interpolate_single_placeholder "You have " " new messages" "count" (PNum 12)
             eq_refl eq_refl).
Defined.

Lemma append_nil_r (s : string) : s ++ "" = s.
Proof. induction s as [|c s IH]; [reflexivity|]. rewrite append_cons, IH. reflexivity. Qed.

(** A dollar sign in a value is not inserted as it is: [$&] brings the
    placeholder back, [$$] shrinks to one sign. *)
Theorem interpolate_expands_dollar_patterns before after paramKey :
  occurs "{" before = false ->
  interpolate [(paramKey, PStr "$&")] (before ++ ("{" ++ paramKey ++ "}") ++ after)
    = before ++ ("{" ++ paramKey ++ "}") ++ after
  /\ interpolate [(paramKey, PStr "$$")] (before ++ ("{" ++ paramKey ++ "}") ++ after)
    = before ++ "$" ++ after.
Proof.
  intros Hbrace. unfold interpolate. simpl. unfold replace.
  change ("{" ++ paramKey ++ "}") with (String "{" (paramKey ++ "}")).
  rewrite (find_first_after "{" (paramKey ++ "}") after before Hbrace).
  split; [|reflexivity].
  change (getSubstitution (String "{" (paramKey ++ "}")) before after "$&")
    with (String "{" (paramKey ++ "}") ++ "").
  rewrite append_nil_r. reflexivity.
Qed.

(** A price of "$$5" is shown as "$5". *)
Lemma interpolate_expands_dollar_patterns_example :
  interpolate [("price", PStr "$$")] "Total: {price}5" = "Total: $5".
Proof.
  exact (proj2 (interpolate_expands_dollar_patterns "Total: " "5" "price" eq_refl)).
Defined.

(** ** Activating twice *)

(** What a successful [setAndLoadLanguage] leaves besides the content. *)
Lemma setAndLoadLanguage_run_success {rt : Runtime} env locale uiSection w doc w1 :
  loadLanguage env locale w = (Return doc, w1) ->
  localStorageWrites env = true ->
  documentLang (snd (setAndLoadLanguage env locale uiSection w)) = locale
  /\ supportedLocales (store (snd (setAndLoadLanguage env locale uiSection w)))
     = supportedLocales (store w).
Proof.
  intros Hload Hw. unfold setAndLoadLanguage, set_isLoading.
  unfold mbind, M_bind, modify, try_finally, try_catch.
  rewrite loadLanguage_with_store.
  pose proof (loadLanguage_store env locale w) as [Hstore _].
  rewrite Hload in *. simpl in *.
  assert (Hnn : doc <> VNull).
  { intros ->. exact (loadLanguage_not_null _ _ _ _ Hload). }
  match goal with |- context [filterSections ?a ?s ?acc ?w0] =>
    destruct (filterSections_run a s acc w0 Hnn) as (filtered & -> & _) end.
  unfold localStorage_setItem, set_messages, with_messages, set_currentLocale,
    set_documentLang, modify, throw.
  rewrite Hw. simpl. rewrite Hstore. split; reflexivity.
Qed.

(** Activation is idempotent: once a locale has been activated with working
    stores and an origin serving its document, activating it again with the
    same section changes nothing at all, network or no network, as long as
    the stores can be read and the preference written. *)
Theorem setAndLoadLanguage_twice {rt : Runtime} env1 env2 locale uiSection w status doc :
  locale <> "en" -> locale <> "" ->
  storage_works env1 = true ->
  network env1 (endpoint env1 locale) = Response true status (Json doc) ->
  truthy doc = true ->
  dbOpens env2 = true -> localStorageReads env2 = true -> dbGets env2 = true ->
  localStorageWrites env2 = true ->
  let w1 := snd (setAndLoadLanguage env1 locale uiSection w) in
  setAndLoadLanguage env2 locale uiSection w1 = (Return tt, w1).
Proof.
  intros Hen Hempty Hworks Hnet Hdoc Ho2 Hr2 Hg2 Hw2. cbv zeta.
  destruct (loadLanguage_serves env1 locale w status doc Hen Hworks Hnet Hdoc)
    as (v & wl & Hload & Hcache & Hv & Huser & _).
  destruct (storage_works_flags _ Hworks) as (_ & _ & _ & _ & _ & Hw1).
  destruct (setAndLoadLanguage_run_success env1 locale uiSection w v wl Hload Hw1)
    as [Hlang1 Hsup1].
  destruct (setAndLoadLanguage_run env1 locale uiSection w)
    as (w1 & Hrun & Hbusy1 & Htr & Hfc & Hcase).
  rewrite Hrun, Hload, Hw1 in *. simpl in *.
  destruct Hcase as (Hmarker & Hcurrent & Hlook1).
  assert (Hmark : getCurrentLanguage w1 = locale).
  { unfold getCurrentLanguage. rewrite Hmarker. apply or_en_Some, Hempty. }
  assert (Hcur : translations w1 !! "current" = Some v) by (rewrite Htr; exact Hcache).
  pose proof (proj2 (loadLanguage_cached_unchanged env2 locale w1 v Hen Hmark Hcur Hv)
                Ho2 Hr2 Hg2) as Hload2.
  destruct (setAndLoadLanguage_run_success env2 locale uiSection w1 v w1 Hload2 Hw2)
    as [Hlang2 Hsup2].
  destruct (setAndLoadLanguage_run env2 locale uiSection w1)
    as (w2 & Hrun2 & Hbusy2 & Htr2 & Hfc2 & Hcase2).
  rewrite Hrun2, Hload2, Hw2 in *. simpl in *.
  destruct Hcase2 as (Hmarker2 & Hcurrent2 & Hlook2).
  f_equal.
  assert (Hmessages : messages (store w2) = messages (store w1)).
  { apply map_eq. intros k. rewrite Hlook1, Hlook2. reflexivity. }
  destruct w1 as [[c1 m1 s1 l1] u1 t1 d1 f1], w2 as [[c2 m2 s2 l2] u2 t2 d2 f2].
  simpl in *. congruence.
Qed.

(** The Spanish visitor opens the home view again, offline: nothing moves. *)
Lemma setAndLoadLanguage_twice_example :
  setAndLoadLanguage offline "es" None spanishWorld = (Return tt, spanishWorld).
Proof.
  apply (setAndLoadLanguage_twice online offline "es" None freshWorld 200
           (VObj fullDocument)); try reflexivity; discriminate.
Defined.

(** ** The loader after the cache read *)

(** Once [languageDB.get] has returned, with or without a document,
    [loadLanguage] returns a value: a failed fetch, a non-ok response, a
    malformed body and a failed [languageDB.set] are all absorbed. *)
Theorem loadLanguage_absorbs_failures_after_cache_read env locale w cached w1 :
  languageDB_get env locale w = (Return cached, w1) ->
  exists v w', loadLanguage env locale w = (Return v, w').
Proof. apply loadLanguage_returns_after_cache_read. Qed.

(** Spanish is requested on a device that cannot write to IndexedDB: the
    loader still returns. *)
Lemma loadLanguage_absorbs_failures_after_cache_read_example :
  exists v w', loadLanguage fullDisk "es" freshWorld = (Return v, w').
Proof.
  apply (loadLanguage_absorbs_failures_after_cache_read fullDisk "es" freshWorld None
           freshWorld).
  reflexivity.
Defined.

